(** * Bytecode comparison report: [scripts/bytecodecompare/prepare_report.py]

    A shallow embedding of the report generator and the properties its
    specification states about it.

    Conventions of the embedding.
    - A Python [str] is a [string]: the bytes of its UTF-8 encoding (every
      text enters the program through a UTF-8 decoder).  Comparison of
      [str] values by code point is comparison of these bytes.
    - A decoded JSON document is a value of [json]; Python's [None] is
      [JNull], a [dict] is an association list in insertion order.
    - A raised exception is the [Raise] case of [result]; only the class
      of the exception is recorded.
    - What the script obtains from outside of it (the [json] module, [str()]
      of objects other than [str], the file system, the compiler process)
      is a field of the class [Host]. *)

From Stdlib Require Import ZArith SpecFloat Ascii.
From stdpp Require Import base tactics option list strings sorting.

Set Warnings "-register-all".
Set Default Proof Using "Type".

Local Open Scope string_scope.
Local Open Scope list_scope.

(** ** Exceptions and results *)

Inductive exn : Type :=
| JSONDecodeError
| TypeError
| AttributeError
| KeyError
| OSError
| UnicodeDecodeError
| CalledProcessError (stdout stderr : string).

Inductive result (A : Type) : Type :=
| Ok (a : A)
| Raise (e : exn).
Arguments Ok {A} a.
Arguments Raise {A} e.

#[global] Instance result_ret : MRet result := λ A a, Ok a.
#[global] Instance result_bind : MBind result := λ A B f m,
  match m with
  | Ok a => f a
  | Raise e => Raise e
  end.

(** ** Decoded JSON documents

    The objects [json.loads] builds: [None], [bool], [int], [float], [str],
    [list] and [dict] (keys are always [str]). *)

Inductive json : Type :=
| JNull
| JBool (b : bool)
| JInt (n : Z)
| JFloat (f : spec_float)
| JStr (s : string)
| JList (l : list json)
| JDict (d : list (string * json)).

(** [d.get(k)] on the entries of a dict. *)
Fixpoint dict_lookup (k : string) (d : list (string * json)) : option json :=
  match d with
  | [] => None
  | (k', v) :: d' => if decide (k = k') then Some v else dict_lookup k d'
  end.

(** [d[k] = v]: replaces the value of an existing key in place, appends a
    new key at the end. *)
Fixpoint dict_set (k : string) (v : json) (d : list (string * json))
  : list (string * json) :=
  match d with
  | [] => [(k, v)]
  | (k', v') :: d' =>
      if decide (k = k') then (k, v) :: d' else (k', v') :: dict_set k v d'
  end.

(** The keys of a [dict] are pairwise distinct. *)
Definition dict_keys (d : list (string * json)) : list string := d.*1.
Definition dict_wf (d : list (string * json)) : Prop := NoDup (dict_keys d).

(** ** [str] operations *)

(** [needle in hay] for two [str]. *)
Fixpoint str_contains (needle hay : string) : bool :=
  String.prefix needle hay ||
  match hay with
  | "" => false
  | String _ hay' => str_contains needle hay'
  end.

(** A byte that continues the encoding of a character. *)
Definition is_continuation (c : ascii) : bool :=
  let n := nat_of_ascii c in ((128 <=? n) && (n <? 192))%nat.

(** [replace] with an empty [old]: [new] is put before every character and
    at the end. *)
Fixpoint str_interleave (new s : string) : string :=
  match s with
  | "" => new
  | String c s' =>
      (if is_continuation c then "" else new) +:+ String c (str_interleave new s')
  end.

(** One left-to-right scan; [skip] counts the characters of a match that
    are still to be passed over. *)
Fixpoint str_replace_go (old new : string) (skip : nat) (s : string) : string :=
  match s with
  | "" => ""
  | String c s' =>
      match skip with
      | S k => str_replace_go old new k s'
      | O =>
          if String.prefix old s
          then new +:+ str_replace_go old new (String.length old - 1) s'
          else String c (str_replace_go old new 0 s')
      end
  end.

(** [s.replace(old, new)]: every non-overlapping occurrence, found from the
    left, is replaced. *)
Definition str_replace (old new s : string) : string :=
  match old with
  | "" => str_interleave new s
  | _ => str_replace_go old new 0 s
  end.

(** No proper, non-empty end of [p] that is an end of [s] is a beginning
    of [p]; with [s] the text [p] without its first character: [p] has no
    border. *)
Fixpoint no_border (p s : string) : bool :=
  match s with
  | "" => true
  | String _ s' => negb (String.prefix s p) && no_border p s'
  end.

Definition border_free (p : string) : bool :=
  match p with
  | "" => true
  | String _ p' => no_border p p'
  end.

(** [''.join(parts)] *)
Definition str_concat (parts : list string) : string := foldr String.app "" parts.

Definition byte (n : nat) : ascii := ascii_of_nat n.

(** The number of line feeds in a text: its number of lines, when every
    line is terminated. *)
Fixpoint line_count (s : string) : nat :=
  match s with
  | "" => 0
  | String c s' => (if Ascii.eqb c (byte 10) then 1 else 0) + line_count s'
  end.

(** White space in the sense of [str.isspace], given a character by the
    bytes of its encoding: U+0009..U+000D, U+001C..U+0020 (one byte),
    U+0085, U+00A0 (two bytes), U+1680, U+2000..U+200A, U+2028, U+2029,
    U+202F, U+205F, U+3000 (three bytes). *)
Definition is_space1 (c : ascii) : bool :=
  let n := nat_of_ascii c in
  (((9 <=? n) && (n <=? 13)) || ((28 <=? n) && (n <=? 32)))%nat.

Definition is_space2 (c1 c2 : ascii) : bool :=
  let n1 := nat_of_ascii c1 in
  let n2 := nat_of_ascii c2 in
  ((n1 =? 194) && ((n2 =? 133) || (n2 =? 160)))%nat.

Definition is_space3 (c1 c2 c3 : ascii) : bool :=
  let n1 := nat_of_ascii c1 in
  let n2 := nat_of_ascii c2 in
  let n3 := nat_of_ascii c3 in
  (((n1 =? 225) && (n2 =? 154) && (n3 =? 128)) ||
   ((n1 =? 226) && (n2 =? 128) &&
      (((128 <=? n3) && (n3 <=? 138)) || (n3 =? 168) || (n3 =? 169) || (n3 =? 175))) ||
   ((n1 =? 226) && (n2 =? 129) && (n3 =? 159)) ||
   ((n1 =? 227) && (n2 =? 128) && (n3 =? 128)))%nat.

(** [s.lstrip()] *)
Fixpoint lstrip (s : string) : string :=
  match s with
  | "" => ""
  | String c1 s1 =>
      if is_space1 c1 then lstrip s1 else
      match s1 with
      | "" => s
      | String c2 s2 =>
          if is_space2 c1 c2 then lstrip s2 else
          match s2 with
          | "" => s
          | String c3 s3 => if is_space3 c1 c2 c3 then lstrip s3 else s
          end
      end
  end.

(** [lstrip] of the reversed text: the bytes of a character arrive last
    byte first. *)
Fixpoint lstrip_rev (s : string) : string :=
  match s with
  | "" => ""
  | String c1 s1 =>
      if is_space1 c1 then lstrip_rev s1 else
      match s1 with
      | "" => s
      | String c2 s2 =>
          if is_space2 c2 c1 then lstrip_rev s2 else
          match s2 with
          | "" => s
          | String c3 s3 => if is_space3 c3 c2 c1 then lstrip_rev s3 else s
          end
      end
  end.

(** [s.rstrip()] and [s.strip()] *)
Definition rstrip (s : string) : string := String.rev (lstrip_rev (String.rev s)).
Definition strip (s : string) : string := rstrip (lstrip s).

(** ** [sorted]

    [sorted(names)] on a list of [str], and [sorted(d.items())] on the
    entries of a dict.  The entries are [(key, value)] tuples; the keys of a
    dict are distinct, so the comparison of two entries is decided by their
    keys. *)
Definition sorted (l : list string) : list string := merge_sort String.le l.

Definition item_le (x y : string * json) : Prop := String.le x.1 y.1.
#[global] Instance item_le_dec : RelDecision item_le.
Proof. intros x y. unfold item_le. apply _. Defined.

Definition sorted_items (d : list (string * json)) : list (string * json) :=
  merge_sort item_le d.

(** ** Paths

    [pathlib.Path] on a POSIX host: a root (empty, [/] or [//]) and the
    components of the path, the empty ones and [.] dropped. *)

Record Path : Type := mkPath {
  path_root : string;
  path_parts : list string
}.

(** [s.split('/')] *)
Fixpoint str_split_slash (s : string) : list string :=
  match s with
  | "" => [""]
  | String c s' =>
      let rest := str_split_slash s' in
      if Ascii.eqb c "/"%char then "" :: rest
      else match rest with
           | [] => [String c ""]
           | part :: parts => String c part :: parts
           end
  end.

(** [Path(s)] *)
Definition Path_of_str (s : string) : Path :=
  {| path_root :=
       if String.prefix "//" s && negb (String.prefix "///" s) then "//"
       else if String.prefix "/" s then "/"
       else "";
     path_parts :=
       filter (λ part, part ≠ "" ∧ part ≠ ".") (str_split_slash s) |}.

(** [str(p)] *)
Definition path_str (p : Path) : string :=
  match path_root p, path_parts p with
  | "", [] => "."
  | root, parts => root +:+ String.concat "/" parts
  end.

(** [p.name]: the final component, empty when there is none. *)
Definition path_name (p : Path) : string := default "" (last (path_parts p)).

(** ** The data model *)

Inductive SMTUse : Type :=
| PRESERVE
| DISABLE
| STRIP_PRAGMAS.

#[global] Instance SMTUse_eq_dec : EqDecision SMTUse.
Proof. solve_decision. Defined.

(** The fields [bytecode] and [metadata] are annotated [Optional[str]]; the
    annotation is not checked, and the fields hold what the decoded document
    has at that place: [JNull] is the absent value [None]. *)
Module ContractReport.
Record t : Type := mk {
  contract_name : string;
  file_name : Path;
  bytecode : json;
  metadata : json
}.
End ContractReport.
Abbreviation ContractReport := ContractReport.t.

Module FileReport.
Record t : Type := mk {
  file_name : Path;
  contract_reports : option (list ContractReport)
}.
End FileReport.
Abbreviation FileReport := FileReport.t.

(** ** What the script takes from its host *)

Class Host : Type := {
  (** [json.loads]; [None] when it raises [JSONDecodeError]. *)
  json_loads : string → option json;
  (** [json.dumps] *)
  json_dumps : json → string;
  (** [repr] of an object that is not a [str] (for these, [str] is [repr]). *)
  py_repr : json → string;
  (** [open(path, mode='r', encoding='utf8').read()] *)
  read_text : string → result string;
  (** [subprocess.run(command_line, input=..., encoding='utf8',
      capture_output=True).stdout] *)
  subprocess_run : list string → string → result string
}.

Definition nl : string := String (byte 10) "".

(** ** Python operations on decoded documents *)

(** [x in o] for a [str] [x] *)
Definition py_in (x : string) (o : json) : result bool :=
  match o with
  | JDict d => Ok (bool_decide (is_Some (dict_lookup x d)))
  | JList l =>
      Ok (existsb (λ e, match e with JStr s => bool_decide (s = x) | _ => false end) l)
  | JStr s => Ok (str_contains x s)
  | _ => Raise TypeError
  end.

(** [o[k]] for a [str] [k] *)
Definition py_getitem (o : json) (k : string) : result json :=
  match o with
  | JDict d =>
      match dict_lookup k d with
      | Some v => Ok v
      | None => Raise KeyError
      end
  | _ => Raise TypeError
  end.

(** [o.items()] *)
Definition py_items (o : json) : result (list (string * json)) :=
  match o with
  | JDict d => Ok d
  | _ => Raise AttributeError
  end.

(** [o.get(k, dflt)] *)
Definition py_get (o : json) (k : string) (dflt : json) : result json :=
  match o with
  | JDict d => Ok (default dflt (dict_lookup k d))
  | _ => Raise AttributeError
  end.

(** [o[k1][k2] = v] *)
Definition py_setitem2 (o : json) (k1 k2 : string) (v : json) : result json :=
  match o with
  | JDict d =>
      match dict_lookup k1 d with
      | Some (JDict d1) => Ok (JDict (dict_set k1 (JDict (dict_set k2 v d1)) d))
      | Some _ => Raise TypeError
      | None => Raise KeyError
      end
  | _ => Raise TypeError
  end.

(** A [for] loop whose body may raise. *)
Fixpoint for_each {A S : Type} (l : list A) (body : S → A → result S) (acc : S)
  : result S :=
  match l with
  | [] => Ok acc
  | x :: l' => acc' ← body acc x; for_each l' body acc'
  end.

(** ** The script *)

Section script.
Context `{Host}.

(** [str(o)], as an f-string field formats it. *)
Definition py_str (o : json) : string :=
  match o with
  | JStr s => s
  | _ => py_repr o
  end.

(** The text of a line after its prefix: the placeholder for an absent
    field, the field otherwise. *)
Definition shown (placeholder : string) (field : json) : string :=
  match field with
  | JNull => placeholder
  | _ => py_str field
  end.

Definition format_report (self : FileReport) : string :=
  let file_name := path_str (FileReport.file_name self) in
  match FileReport.contract_reports self with
  | None => file_name +:+ ": <ERROR>" +:+ nl
  | Some contract_reports =>
      fold_left (λ report contract_report,
        let bytecode :=
          match ContractReport.bytecode contract_report with
          | JNull => JStr "<NO BYTECODE>"
          | b => b
          end in
        let metadata :=
          match ContractReport.metadata contract_report with
          | JNull => JStr "<NO METADATA>"
          | m => m
          end in
        let report :=
          report +:+ (file_name +:+ ":" +:+
            ContractReport.contract_name contract_report +:+ " " +:+
            py_str bytecode +:+ nl) in
        report +:+ (file_name +:+ ":" +:+
          ContractReport.contract_name contract_report +:+ " " +:+
          py_str metadata +:+ nl))
        contract_reports ""
  end.

(** [path] is the name the file is opened under. *)
Definition load_source (path : string) (smt_use : SMTUse) : result string :=
  file_content ← read_text path;
  if decide (smt_use = STRIP_PRAGMAS)
  then mret (str_replace "pragma experimental SMTChecker;" "" file_content)
  else mret file_content.

(** The [ContractReport(...)] expression of the inner loop. *)
Definition contract_report_of (file_name contract_name : string)
    (contract_results : json) : result ContractReport :=
  evm ← py_get contract_results "evm" (JDict []);
  evm_bytecode ← py_get evm "bytecode" (JDict []);
  object ← py_get evm_bytecode "object" JNull;
  metadata ← py_get contract_results "metadata" JNull;
  mret (ContractReport.mk contract_name (Path_of_str file_name) object metadata).

(** The body of [parse_standard_json_output] after decoding. *)
Definition parse_decoded (source_file_name : Path) (decoded_json_output : json)
  : result FileReport :=
  has_contracts ← py_in "contracts" decoded_json_output;
  if negb has_contracts
  then mret (FileReport.mk source_file_name None)
  else
    contracts ← py_getitem decoded_json_output "contracts";
    files ← py_items contracts;
    contract_reports ←
      for_each (sorted_items files) (λ reports '(file_name, file_results),
        contracts_of_file ← py_items file_results;
        for_each (sorted_items contracts_of_file)
          (λ reports '(contract_name, contract_results),
            contract_report ←
              contract_report_of file_name contract_name contract_results;
            mret (reports ++ [contract_report]))
          reports)
        [];
    mret (FileReport.mk source_file_name (Some contract_reports)).

Definition parse_standard_json_output (source_file_name : Path)
    (standard_json_output : string) : result FileReport :=
  match json_loads (strip standard_json_output) with
  | None => Raise JSONDecodeError
  | Some decoded_json_output => parse_decoded source_file_name decoded_json_output
  end.

(** The document [json_input], once the source is loaded. *)
Definition json_input (source_file_name content : string) (optimize : bool)
    (smt_use : SMTUse) : result json :=
  let json_input :=
    JDict [
      ("language", JStr "Solidity");
      ("sources", JDict [(source_file_name, JDict [("content", JStr content)])]);
      ("settings", JDict [
         ("optimizer", JDict [("enabled", JBool optimize)]);
         ("outputSelection",
           JDict [("*", JDict [("*", JList [JStr "evm.bytecode.object";
                                           JStr "metadata"])])])])] in
  if decide (smt_use = DISABLE)
  then py_setitem2 json_input "settings" "modelChecker"
         (JDict [("engine", JStr "none")])
  else mret json_input.

(** [source_file_name] is the [str] the caller passes ([str()] of it is
    itself). *)
Definition prepare_compiler_input (compiler_path : Path)
    (source_file_name : string) (optimize : bool) (smt_use : SMTUse)
  : result (list string * string) :=
  content ← load_source source_file_name smt_use;
  json_input ← json_input source_file_name content optimize smt_use;
  let command_line := [path_str compiler_path; "--standard-json"] in
  let compiler_input := json_dumps json_input in
  mret (command_line, compiler_input).

Definition run_compiler (compiler_path source_file_name : Path)
    (optimize : bool) (smt_use : SMTUse) : result FileReport :=
  '(command_line, compiler_input) ←
    prepare_compiler_input compiler_path (path_name source_file_name)
      optimize smt_use;
  stdout ← subprocess_run command_line compiler_input;
  parse_standard_json_output source_file_name stdout.

End script.

(** ** The report file and the error stream

    [generate_report] writes to [report.txt] and, when it is interrupted,
    to the standard error stream.  The state it acts on is the text written
    to each; opening [report.txt] is taken to succeed, and the file is not
    one of the sources. *)

Record world : Type := mkWorld {
  report_txt : string;
  stderr : string
}.

Definition io (A : Type) : Type := world → world * result A.

#[global] Instance io_ret : MRet io := λ A a w, (w, Ok a).
#[global] Instance io_bind : MBind io := λ A B f m w,
  match m w with
  | (w', Ok a) => f a w'
  | (w', Raise e) => (w', Raise e)
  end.

Definition io_raise {A : Type} (e : exn) : io A := λ w, (w, Raise e).
Definition io_lift {A : Type} (r : result A) : io A := λ w, (w, r).

(** [try: m except: handler] *)
Definition io_try {A : Type} (m : io A) (handler : exn → io A) : io A := λ w,
  match m w with
  | (w', Ok a) => (w', Ok a)
  | (w', Raise e) => handler e w'
  end.

(** [open('report.txt', mode='w', ...)]: the file starts empty. *)
Definition open_report : io unit := λ w,
  (mkWorld "" (stderr w), Ok tt).

(** [report_file.write(text)] *)
Definition write_report (text : string) : io unit := λ w,
  (mkWorld (report_txt w +:+ text) (stderr w), Ok tt).

(** [print(text, file=sys.stderr)] *)
Definition print_stderr (text : string) : io unit := λ w,
  (mkWorld (report_txt w) (stderr w +:+ text +:+ nl), Ok tt).

(** A [for] loop in [io]. *)
Fixpoint io_for {A : Type} (l : list A) (body : A → io unit) : io unit :=
  match l with
  | [] => mret tt
  | x :: l' => body x ;; io_for l' body
  end.

(** [str(b)] for a [bool] *)
Definition str_of_bool (b : bool) : string := if b then "True" else "False".

Section report.
Context `{Host}.

Definition interrupted (source_file_name : string) (optimize : bool) : string :=
  nl +:+ nl +:+ "Interrupted by an exception while processing file '" +:+
  source_file_name +:+ "' with optimize=" +:+ str_of_bool optimize +:+ nl.

(** The [try] statement in the body of the loops: one compiler run, its
    report appended to the file; the handlers print and raise again. *)
Definition process (compiler_path : Path) (smt_use : SMTUse)
    (optimize : bool) (source_file_name : string) : io unit :=
  io_try
    (report ← io_lift (run_compiler compiler_path
                         (Path_of_str source_file_name) optimize smt_use);
     write_report (format_report report))
    (λ exception,
      match exception with
      | CalledProcessError stdout stderr =>
          print_stderr (interrupted source_file_name optimize) ;;
          print_stderr ("COMPILER STDOUT:" +:+ nl +:+ stdout) ;;
          print_stderr ("COMPILER STDERR:" +:+ nl +:+ stderr) ;;
          io_raise exception
      | _ =>
          print_stderr (interrupted source_file_name optimize) ;;
          io_raise exception
      end).

Definition generate_report (source_file_names : list string)
    (compiler_path : Path) (smt_use : SMTUse) : io unit :=
  open_report ;;
  io_for [false; true] (λ optimize,
    io_for (sorted source_file_names) (λ source_file_name,
      process compiler_path smt_use optimize source_file_name)).

End report.

(** ** The same mapping in another order

    Used to state that the parser does not depend on the order in which the
    compiler lists files and contracts. *)

(** The entries of an object; none for any other value. *)
Definition json_entries (o : json) : list (string * json) :=
  match o with
  | JDict d => d
  | _ => []
  end.

(** The (inner-file, contract) pairs of a [contracts] mapping, each with
    the results of the contract, in the order of the document. *)
Definition contract_pairs (contracts : list (string * json))
  : list (string * string * json) :=
  contracts ≫= λ file,
    (λ contract, (file.1, contract.1, contract.2)) <$> json_entries file.2.

(** The pairs in the order the two loops of the parser visit the entries
    [files]: the contracts of each file sorted by their key. *)
Definition visited (files : list (string * json)) : list (string * string * json) :=
  files ≫= λ file,
    (λ contract, (file.1, contract.1, contract.2))
      <$> sorted_items (json_entries file.2).

(** Pairs ordered by inner-file key, then by contract key. *)
Definition pair_le (x y : string * string * json) : Prop :=
  (String.le x.1.1 y.1.1 ∧ x.1.1 ≠ y.1.1) ∨
  (x.1.1 = y.1.1 ∧ String.le x.1.2 y.1.2).

(** Two values that are equal, or objects with the same entries in another
    order. *)
Inductive same_value : json → json → Prop :=
| same_value_dict (m n : list (string * json)) :
    m ≡ₚ n → same_value (JDict m) (JDict n)
| same_value_refl (v : json) : same_value v v.

(** [c2] lists the files of [c1] in another order, and the contracts of
    each file in another order. *)
Definition reordered (c1 c2 : list (string * json)) : Prop :=
  ∃ c, c1 ≡ₚ c ∧ Forall2 (λ x y, x.1 = y.1 ∧ same_value x.2 y.2) c c2.

(** The keys of a [contracts] mapping are distinct, and so are the keys of
    each mapping in it, as in every decoded document. *)
Definition contracts_wf (c : list (string * json)) : Prop :=
  dict_wf c ∧ Forall (λ file, dict_wf (json_entries file.2)) c.

(** ** A host for the examples

    A compiler that answers every input with the same output, a decoder for
    the handful of outputs the examples use, and three source files; in
    [N.sol] the directive stands inside another copy of itself. *)

Definition dq : string := String (byte 34) "".
Definition quoted (s : string) : string := dq +:+ s +:+ dq.

(** An output with errors only, one with an empty [contracts] section, and
    one with two contracts of one file. *)
Definition demo_output_error : string :=
  "{" +:+ quoted "errors" +:+ ":[]}".
Definition demo_output_empty : string :=
  "{" +:+ quoted "contracts" +:+ ":{}}".
Definition demo_output_two : string :=
  "{" +:+ quoted "contracts" +:+ ":{" +:+ quoted "a.sol" +:+ ":{" +:+
  quoted "C2" +:+ ":{}," +:+ quoted "C1" +:+ ":{" +:+ quoted "metadata" +:+ ":" +:+
  quoted "m" +:+ "}}}}".

(** The same output with the two contracts in the other order. *)
Definition demo_output_two_sorted : string :=
  "{" +:+ quoted "contracts" +:+ ":{" +:+ quoted "a.sol" +:+ ":{" +:+
  quoted "C1" +:+ ":{" +:+ quoted "metadata" +:+ ":" +:+ quoted "m" +:+ "}," +:+
  quoted "C2" +:+ ":{}}}}".

Definition demo_contracts : list (string * json) :=
  [("a.sol", JDict [("C2", JDict []); ("C1", JDict [("metadata", JStr "m")])])].
Definition demo_contracts_sorted : list (string * json) :=
  [("a.sol", JDict [("C1", JDict [("metadata", JStr "m")]); ("C2", JDict [])])].

Definition demo_loads (s : string) : option json :=
  if decide (s = demo_output_error) then Some (JDict [("errors", JList [])])
  else if decide (s = demo_output_empty) then Some (JDict [("contracts", JDict [])])
  else if decide (s = demo_output_two)
  then Some (JDict [("contracts", JDict demo_contracts)])
  else if decide (s = demo_output_two_sorted)
  then Some (JDict [("contracts", JDict demo_contracts_sorted)])
  else None.

Definition demo_read_text (path : string) : result string :=
  if decide (path = "A.sol") then Ok "contract A {}"
  else if decide (path = "B.sol")
  then Ok "pragma experimental SMTChecker;contract B {}"
  else if decide (path = "N.sol")
  then Ok "pragma experimental SMTCheckpragma experimental SMTChecker;er;"
  else Raise OSError.

Definition demo_host : Host := {|
  json_loads := demo_loads;
  json_dumps := λ _, "{}";
  py_repr := λ _, "?";
  read_text := demo_read_text;
  subprocess_run := λ _ _, Ok (" " +:+ demo_output_two +:+ nl)
|}.

Definition demo_contract_reports : list ContractReport := [
  ContractReport.mk "C1" (Path_of_str "a.sol") JNull (JStr "m");
  ContractReport.mk "C2" (Path_of_str "a.sol") (JStr "6080") JNull
].

Definition demo_file_report : FileReport :=
  FileReport.mk (Path_of_str "A.sol") (Some demo_contract_reports).

(** What the parser makes of the output with two contracts. *)
Definition demo_file_report_parsed : FileReport :=
  FileReport.mk (Path_of_str "A.sol") (Some [
    ContractReport.mk "C1" (Path_of_str "a.sol") JNull (JStr "m");
    ContractReport.mk "C2" (Path_of_str "a.sol") JNull JNull]).

(** ** The command line and the entry point

    The values of the modes, the conversion [SMTUse(value)] and what the
    script does once the options are parsed and the sources are found.  The
    argument parser and [glob] are the host's: [main] takes the list of
    files found and the two options as they come from the parser. *)

(** [s.value] *)
Definition SMTUse_value (s : SMTUse) : string :=
  match s with
  | PRESERVE => "preserve"
  | DISABLE => "disable"
  | STRIP_PRAGMAS => "strip-pragmas"
  end.

(** [list(SMTUse)]: the members in the order of their definition. *)
Definition SMTUse_members : list SMTUse := [PRESERVE; DISABLE; STRIP_PRAGMAS].

(** [SMTUse(value)]: the member with that value; [None] when the lookup
    raises [ValueError]. *)
Definition SMTUse_of_value (value : string) : option SMTUse :=
  head (filter (λ s, SMTUse_value s = value) SMTUse_members).

(** The [choices] and the [default] of the option [--smt-use]. *)
Definition smt_use_choices : list string := SMTUse_value <$> SMTUse_members.
Definition smt_use_default : string := SMTUse_value DISABLE.

Section entry_point.
Context `{Host}.

(** The block at the end of the script, run when it is the main module,
    given the files [glob] found and the parsed options; [None] when
    [SMTUse(...)] raises, before anything is written. *)
Definition main (sol_files : list string) (compiler_path smt_use : string)
  : option (io unit) :=
  smt_use ← SMTUse_of_value smt_use;
  Some (generate_report sol_files (Path_of_str compiler_path) smt_use).

End entry_point.

(** ** A second host for the examples

    The decoder knows three more outputs: one with both errors and
    contracts, [null] and the empty array; the
    compiler of [warned_host] prints the first, and on [failing_host] the
    run of the compiler raises [CalledProcessError], which exercises the
    first handler of [generate_report] ([subprocess.run] without [check]
    does not raise it of itself). *)

Definition demo_output_warned : string :=
  "{" +:+ quoted "errors" +:+ ":[1]," +:+ quoted "contracts" +:+ ":{" +:+
  quoted "a.sol" +:+ ":{" +:+ quoted "C2" +:+ ":{}," +:+ quoted "C1" +:+ ":{" +:+
  quoted "metadata" +:+ ":" +:+ quoted "m" +:+ "}}}}".

Definition demo_loads_warned (s : string) : option json :=
  if decide (s = demo_output_warned)
  then Some (JDict [("errors", JList [JInt 1]); ("contracts", JDict demo_contracts)])
  else if decide (s = "null") then Some JNull
  else if decide (s = "[]") then Some (JList [])
  else demo_loads s.

Definition failing_host : Host := {|
  json_loads := demo_loads_warned;
  json_dumps := λ _, "{}";
  py_repr := λ _, "?";
  read_text := demo_read_text;
  subprocess_run := λ _ _, Raise (CalledProcessError "out" "err")
|}.

Definition warned_host : Host := {|
  json_loads := demo_loads_warned;
  json_dumps := λ _, "{}";
  py_repr := λ _, "?";
  read_text := demo_read_text;
  subprocess_run := λ _ _, Ok demo_output_warned
|}.

(** ** Reading a file in text mode

    [open(path, mode='r', encoding='utf8')] and then [read()]: the bytes of
    the file are decoded as UTF-8, and, no [newline] being given, every
    carriage return followed by a line feed and every other carriage
    return of the text becomes one line feed.  A [str] being held by the
    bytes of its encoding, decoding keeps a well-formed sequence as it is
    and raises [UnicodeDecodeError] on any other. *)

Definition cr : string := String (byte 13) "".

Definition in_range (lo hi : nat) (c : ascii) : bool :=
  let n := nat_of_ascii c in ((lo <=? n) && (n <=? hi))%nat.

(** The second byte of a character of three bytes: no overlong form after
    [E0], no surrogate after [ED]. *)
Definition second_of_three (c1 c2 : ascii) : bool :=
  if in_range 224 224 c1 then in_range 160 191 c2
  else if in_range 237 237 c1 then in_range 128 159 c2
  else in_range 128 191 c2.

(** The second byte of a character of four bytes: no overlong form after
    [F0], nothing above U+10FFFF after [F4]. *)
Definition second_of_four (c1 c2 : ascii) : bool :=
  if in_range 240 240 c1 then in_range 144 191 c2
  else if in_range 244 244 c1 then in_range 128 143 c2
  else in_range 128 191 c2.

(** The byte sequences the decoder accepts, with [errors='strict']. *)
Fixpoint utf8_valid (s : string) : bool :=
  match s with
  | "" => true
  | String c1 s1 =>
      if in_range 0 127 c1 then utf8_valid s1
      else
        match s1 with
        | "" => false
        | String c2 s2 =>
            if in_range 194 223 c1 then in_range 128 191 c2 && utf8_valid s2
            else
              match s2 with
              | "" => false
              | String c3 s3 =>
                  if in_range 224 239 c1
                  then second_of_three c1 c2 && in_range 128 191 c3 &&
                       utf8_valid s3
                  else
                    match s3 with
                    | "" => false
                    | String c4 s4 =>
                        in_range 240 244 c1 && second_of_four c1 c2 &&
                        in_range 128 191 c3 && in_range 128 191 c4 &&
                        utf8_valid s4
                    end
              end
        end
  end.

(** The translation of line endings on reading, with [newline=None]. *)
Fixpoint universal_newlines (s : string) : string :=
  match s with
  | "" => ""
  | String c s' =>
      if Ascii.eqb c (byte 13)
      then
        match s' with
        | String c' s'' =>
            if Ascii.eqb c' (byte 10)
            then String (byte 10) (universal_newlines s'')
            else String (byte 10) (universal_newlines s')
        | "" => String (byte 10) ""
        end
      else String c (universal_newlines s')
  end.

(** What [read()] returns for a file opened in text mode, given the bytes
    of the file, or the exception [open] raises. *)
Definition text_mode_read (file : result string) : result string :=
  match file with
  | Ok file_bytes =>
      if utf8_valid file_bytes then Ok (universal_newlines file_bytes)
      else Raise UnicodeDecodeError
  | Raise e => Raise e
  end.

(** ** A host that reads from a disk

    [W.sol] has the line endings of Windows and a carriage return at its
    end; [bad.sol] is no UTF-8. *)

Definition demo_W_bytes : string :=
  "pragma experimental SMTChecker;" +:+ cr +:+ nl +:+ "contract W {}" +:+ cr.

Definition demo_disk (path : string) : result string :=
  if decide (path = "W.sol") then Ok demo_W_bytes
  else if decide (path = "bad.sol") then Ok (String (byte 255) "")
  else Raise OSError.

Definition disk_host : Host := {|
  json_loads := demo_loads;
  json_dumps := λ _, "{}";
  py_repr := λ _, "?";
  read_text := λ path, text_mode_read (demo_disk path);
  subprocess_run := λ _ _, Ok demo_output_two
|}.

(** * The embedding on concrete inputs *)

Example Path_examples :
  map (λ s, (path_str (Path_of_str s), path_name (Path_of_str s)))
    ["A.sol"; "contracts/A.sol"; "/x//y/./z/"; "//a"; "."; "/"]
  = [("A.sol", "A.sol"); ("contracts/A.sol", "A.sol"); ("/x/y/z", "z");
     ("//a", "a"); (".", ""); ("/", "")].
Proof. reflexivity. Qed.

Example strip_example :
  strip (nl +:+ " " +:+ String (byte 194) (String (byte 160) "{ }") +:+ " " +:+ nl)
  = "{ }".
Proof. reflexivity. Qed.

Example sorted_example :
  sorted ["b.sol"; "B.sol"; "a.sol"; "A.sol"] = ["A.sol"; "B.sol"; "a.sol"; "b.sol"].
Proof. reflexivity. Qed.

Example str_replace_example :
  str_replace "pragma experimental SMTChecker;" ""
    "pragma solidity >=0.0;pragma experimental SMTChecker;contract C {}"
  = "pragma solidity >=0.0;contract C {}".
Proof. reflexivity. Qed.

Example parse_example :
  parse_standard_json_output (H:=demo_host) (Path_of_str "A.sol")
    (" " +:+ demo_output_two +:+ nl)
  = Ok demo_file_report_parsed.
Proof. reflexivity. Qed.

Example non_object_example :
  parse_decoded (Path_of_str "A.sol") JNull = Raise TypeError ∧
  parse_decoded (Path_of_str "A.sol") (JList []) =
    Ok (FileReport.mk (Path_of_str "A.sol") None) ∧
  parse_decoded (Path_of_str "A.sol") (JDict [("contracts", JList [])])
    = Raise AttributeError.
Proof. done. Qed.

Example json_input_example :
  json_input "A.sol" "contract A {}" true DISABLE
  = Ok (JDict [
      ("language", JStr "Solidity");
      ("sources", JDict [("A.sol", JDict [("content", JStr "contract A {}")])]);
      ("settings", JDict [
         ("optimizer", JDict [("enabled", JBool true)]);
         ("outputSelection",
           JDict [("*", JDict [("*", JList [JStr "evm.bytecode.object";
                                           JStr "metadata"])])]);
         ("modelChecker", JDict [("engine", JStr "none")])])]).
Proof. reflexivity. Qed.

Example generate_report_example :
  generate_report (H:=demo_host) ["B.sol"; "A.sol"] (Path_of_str "solc") DISABLE
    (mkWorld "stale" "")
  = (mkWorld (str_concat [
       "A.sol:C1 <NO BYTECODE>" +:+ nl; "A.sol:C1 m" +:+ nl;
       "A.sol:C2 <NO BYTECODE>" +:+ nl; "A.sol:C2 <NO METADATA>" +:+ nl;
       "B.sol:C1 <NO BYTECODE>" +:+ nl; "B.sol:C1 m" +:+ nl;
       "B.sol:C2 <NO BYTECODE>" +:+ nl; "B.sol:C2 <NO METADATA>" +:+ nl;
       "A.sol:C1 <NO BYTECODE>" +:+ nl; "A.sol:C1 m" +:+ nl;
       "A.sol:C2 <NO BYTECODE>" +:+ nl; "A.sol:C2 <NO METADATA>" +:+ nl;
       "B.sol:C1 <NO BYTECODE>" +:+ nl; "B.sol:C1 m" +:+ nl;
       "B.sol:C2 <NO BYTECODE>" +:+ nl; "B.sol:C2 <NO METADATA>" +:+ nl]) "",
     Ok tt).
Proof. reflexivity. Qed.

(** A file that cannot be read stops the run; what was written stays. *)
Example generate_report_interrupted :
  generate_report (H:=demo_host) ["missing.sol"; "A.sol"] (Path_of_str "solc")
    PRESERVE (mkWorld "" "")
  = (mkWorld (str_concat [
       "A.sol:C1 <NO BYTECODE>" +:+ nl; "A.sol:C1 m" +:+ nl;
       "A.sol:C2 <NO BYTECODE>" +:+ nl; "A.sol:C2 <NO METADATA>" +:+ nl])
       (interrupted "missing.sol" false +:+ nl),
     Raise OSError).
Proof. reflexivity. Qed.

(** * Properties *)

(** ** Strings *)

Lemma str_app_cons c s t : String c s +:+ t = String c (s +:+ t).
Proof. reflexivity. Qed.

Lemma str_app_nil_r s : s +:+ "" = s.
Proof. induction s as [|c s IH]; [done|]. by rewrite str_app_cons, IH. Qed.

Lemma str_app_assoc s t u : (s +:+ t) +:+ u = s +:+ (t +:+ u).
Proof. induction s as [|c s IH]; [done|]. by rewrite !str_app_cons, IH. Qed.

Lemma str_length_app s t :
  String.length (s +:+ t) = String.length s + String.length t.
Proof. induction s as [|c s IH]; [done|]. rewrite str_app_cons. simpl. by rewrite IH. Qed.

Lemma prefix_nil_l s : String.prefix "" s = true.
Proof. by destruct s. Qed.

Lemma prefix_cons c p d s :
  String.prefix (String c p) (String d s) = bool_decide (c = d) && String.prefix p s.
Proof.
  simpl. destruct (ascii_dec c d) as [->|Hne].
  - by rewrite bool_decide_eq_true_2.
  - by rewrite bool_decide_eq_false_2.
Qed.

Lemma prefix_spec p s : String.prefix p s = true ↔ ∃ t, s = p +:+ t.
Proof.
  revert s. induction p as [|c p IH]; intros s.
  - rewrite prefix_nil_l. split; [intros _; by exists s|done].
  - destruct s as [|d s].
    + split; [done|]. intros [t Ht]. by rewrite str_app_cons in Ht.
    + rewrite prefix_cons, andb_true_iff, bool_decide_eq_true, IH.
      split.
      * intros [-> [t ->]]. by exists t.
      * intros [t Ht]. rewrite str_app_cons in Ht. injection Ht as -> ->. eauto.
Qed.

Lemma str_contains_spec p s :
  str_contains p s = true ↔ ∃ a b, s = a +:+ p +:+ b.
Proof.
  induction s as [|c s IH]; cbn [str_contains].
  - rewrite orb_false_r, prefix_spec. split.
    + intros [t Ht]. by exists "", t.
    + intros [a [b Hab]]. destruct a; [by exists b|by rewrite str_app_cons in Hab].
  - rewrite orb_true_iff, prefix_spec, IH. split.
    + intros [[t Ht]|[a [b ->]]]; [by exists "", t|by exists (String c a), b].
    + intros [[|d a] [b Hab]].
      * left. by exists b.
      * right. rewrite str_app_cons in Hab. injection Hab as -> ->. by exists a, b.
Qed.

Lemma str_concat_cons (part : string) (parts : list string) :
  str_concat (part :: parts) = part +:+ str_concat parts.
Proof. reflexivity. Qed.

Lemma line_count_app s t : line_count (s +:+ t) = line_count s + line_count t.
Proof.
  induction s as [|c s IH]; [done|].
  rewrite str_app_cons. cbn [line_count]. rewrite IH. lia.
Qed.

(** ** Rendering a file report *)

Section format_report_facts.
Context `{Host}.

Lemma shown_eq placeholder field :
  py_str (match field with
          | JNull => JStr placeholder
          | JBool b => JBool b
          | JInt n => JInt n
          | JFloat f => JFloat f
          | JStr s => JStr s
          | JList l => JList l
          | JDict d => JDict d
          end)
  = shown placeholder field.
Proof. by destruct field. Qed.

Lemma format_report_fold file (crs : list ContractReport) (init : string) :
  fold_left (λ report contract_report,
    let bytecode :=
      match ContractReport.bytecode contract_report with
      | JNull => JStr "<NO BYTECODE>"
      | b => b
      end in
    let metadata :=
      match ContractReport.metadata contract_report with
      | JNull => JStr "<NO METADATA>"
      | m => m
      end in
    let report :=
      report +:+ (file +:+ ":" +:+
        ContractReport.contract_name contract_report +:+ " " +:+
        py_str bytecode +:+ nl) in
    report +:+ (file +:+ ":" +:+
      ContractReport.contract_name contract_report +:+ " " +:+
      py_str metadata +:+ nl)) crs init
  = init +:+ str_concat
      (map (λ cr,
         (file +:+ ":" +:+ ContractReport.contract_name cr +:+ " " +:+
            shown "<NO BYTECODE>" (ContractReport.bytecode cr) +:+ nl) +:+
         (file +:+ ":" +:+ ContractReport.contract_name cr +:+ " " +:+
            shown "<NO METADATA>" (ContractReport.metadata cr) +:+ nl)) crs).
Proof.
  revert init. induction crs as [|cr crs IH]; intros init.
  - simpl. by rewrite str_app_nil_r.
  - cbn [fold_left map str_concat foldr]. rewrite IH. cbv zeta.
    fold (str_concat). rewrite !shown_eq, !str_app_assoc. done.
Qed.
Lemma line_count_shown (placeholder : string) (field : json) :
  line_count placeholder = 0 →
  line_count (py_str field) = 0 →
  line_count (shown placeholder field) = 0.
Proof. intros Hp Hf. by destruct field. Qed.

Lemma line_count_blocks (file : string) (crs : list ContractReport) :
  line_count file = 0 →
  Forall (λ cr : ContractReport,
    line_count (ContractReport.contract_name cr) = 0 ∧
    line_count (py_str (ContractReport.bytecode cr)) = 0 ∧
    line_count (py_str (ContractReport.metadata cr)) = 0) crs →
  line_count (str_concat (map (λ cr,
    (file +:+ ":" +:+ ContractReport.contract_name cr +:+ " " +:+
       shown "<NO BYTECODE>" (ContractReport.bytecode cr) +:+ nl) +:+
    (file +:+ ":" +:+ ContractReport.contract_name cr +:+ " " +:+
       shown "<NO METADATA>" (ContractReport.metadata cr) +:+ nl)) crs))
  = 2 * length crs.
Proof.
  intros Hfile Hfields.
  induction Hfields as [|cr crs (Hname & Hbyte & Hmeta) _ IH]; [done|].
  cbn [map length]. rewrite str_concat_cons.
  rewrite line_count_app, IH, !line_count_app, Hfile, Hname.
  rewrite !line_count_shown by done.
  change (line_count nl) with 1. change (line_count ":") with 0.
  change (line_count " ") with 0. lia.
Qed.

End format_report_facts.

Section file_reports.
Context `{Host}.

(** C1. When the decoded document is an object without a top-level
    [contracts] key, [parse_standard_json_output] returns a file report for
    the given name whose sequence of contract reports is absent; and every
    file report with an absent sequence is rendered as the single line
    [<file>: <ERROR>] followed by a line feed, and nothing else. *)
Theorem no_contracts_key_gives_error_line
    (f : Path) (raw : string) (d : list (string * json)) :
  json_loads (strip raw) = Some (JDict d) →
  dict_lookup "contracts" d = None →
  parse_standard_json_output f raw = Ok (FileReport.mk f None) ∧
  ∀ fr : FileReport,
    FileReport.contract_reports fr = None →
    format_report fr = path_str (FileReport.file_name fr) +:+ ": <ERROR>" +:+ nl.
Proof.
  intros Hloads Hkey. split.
  - unfold parse_standard_json_output. rewrite Hloads.
    unfold parse_decoded. simpl. by rewrite Hkey.
  - intros fr Hnone. unfold format_report. by rewrite Hnone.
Qed.

(** C9. When the decoded document maps [contracts] to an empty object,
    [parse_standard_json_output] returns a file report whose sequence of
    contract reports is present and empty, and [format_report] renders it
    as the empty text, which is not the [<ERROR>] line. *)
Theorem empty_contracts_gives_empty_report
    (f : Path) (raw : string) (d : list (string * json)) :
  json_loads (strip raw) = Some (JDict d) →
  dict_lookup "contracts" d = Some (JDict []) →
  parse_standard_json_output f raw = Ok (FileReport.mk f (Some [])) ∧
  format_report (FileReport.mk f (Some [])) = "" ∧
  format_report (FileReport.mk f (Some [])) ≠ format_report (FileReport.mk f None).
Proof.
  intros Hloads Hkey. split; [|split].
  - unfold parse_standard_json_output. rewrite Hloads.
    unfold parse_decoded. simpl. by rewrite Hkey.
  - done.
  - unfold format_report. simpl. destruct (path_str f); discriminate.
Qed.

(** C2. For a file report with a present sequence of contract reports,
    [format_report] emits two lines per contract report, in the order of
    the sequence.  Each line is the prefix [<file>:<contract-name> ], a
    text and a line feed.  The text of the first line is the placeholder
    [<NO BYTECODE>] when the bytecode is absent and the bytecode otherwise;
    the text of the second line is the placeholder [<NO METADATA>] when the
    metadata is absent and the metadata otherwise.  When no line feed
    occurs in the file name, the contract names and the texts, the rendered
    text has two lines per contract report. *)
Theorem format_report_two_lines_per_contract
    (fr : FileReport) (crs : list ContractReport) :
  FileReport.contract_reports fr = Some crs →
  ∃ lines : list (string * string),
    format_report fr = str_concat (map (λ l, l.1 +:+ l.2) lines) ∧
    Forall2 (λ (cr : ContractReport) (l : string * string),
      let pre := path_str (FileReport.file_name fr) +:+ ":" +:+
                 ContractReport.contract_name cr +:+ " " in
      ∃ bytecode metadata : string,
        l.1 = pre +:+ bytecode +:+ nl ∧
        l.2 = pre +:+ metadata +:+ nl ∧
        (ContractReport.bytecode cr = JNull → bytecode = "<NO BYTECODE>") ∧
        (ContractReport.bytecode cr ≠ JNull →
           bytecode = py_str (ContractReport.bytecode cr)) ∧
        (ContractReport.metadata cr = JNull → metadata = "<NO METADATA>") ∧
        (ContractReport.metadata cr ≠ JNull →
           metadata = py_str (ContractReport.metadata cr)))
      crs lines ∧
    (line_count (path_str (FileReport.file_name fr)) = 0 →
     Forall (λ cr : ContractReport,
       line_count (ContractReport.contract_name cr) = 0 ∧
       line_count (py_str (ContractReport.bytecode cr)) = 0 ∧
       line_count (py_str (ContractReport.metadata cr)) = 0) crs →
     line_count (format_report fr) = 2 * length crs).
Proof.
  intros Hcrs.
  set (file := path_str (FileReport.file_name fr)).
  exists (map (λ cr,
    (file +:+ ":" +:+ ContractReport.contract_name cr +:+ " " +:+
       shown "<NO BYTECODE>" (ContractReport.bytecode cr) +:+ nl,
     file +:+ ":" +:+ ContractReport.contract_name cr +:+ " " +:+
       shown "<NO METADATA>" (ContractReport.metadata cr) +:+ nl)) crs).
  assert (format_report fr = str_concat (map (λ cr,
    (file +:+ ":" +:+ ContractReport.contract_name cr +:+ " " +:+
       shown "<NO BYTECODE>" (ContractReport.bytecode cr) +:+ nl) +:+
    (file +:+ ":" +:+ ContractReport.contract_name cr +:+ " " +:+
       shown "<NO METADATA>" (ContractReport.metadata cr) +:+ nl)) crs)) as Hformat.
  { unfold format_report. rewrite Hcrs. fold file. by rewrite format_report_fold. }
  split; [|split].
  - rewrite Hformat. by rewrite map_map.
  - apply Forall2_fmap_r, Forall_Forall2_diag, Forall_forall.
    intros cr _. cbn zeta. cbn [fst snd].
    exists (shown "<NO BYTECODE>" (ContractReport.bytecode cr)),
           (shown "<NO METADATA>" (ContractReport.metadata cr)).
    rewrite !str_app_assoc.
    repeat split; try done.
    + by intros ->.
    + by destruct (ContractReport.bytecode cr).
    + by intros ->.
    + by destruct (ContractReport.metadata cr).
  - intros Hfile Hfields. rewrite Hformat. by apply line_count_blocks.
Qed.

End file_reports.

Section report_independence.
Context `{Host}.

(** C10. The text [format_report] renders does not depend on the
    [file_name] stored in the contract reports: two file reports with the
    same [file_name], whose contract reports agree pairwise on the contract
    name, the bytecode and the metadata, are rendered as the same text. *)
Theorem format_report_ignores_contract_file_name (fr1 fr2 : FileReport) :
  FileReport.file_name fr1 = FileReport.file_name fr2 →
  option_Forall2
    (Forall2 (λ c1 c2 : ContractReport,
       ContractReport.contract_name c1 = ContractReport.contract_name c2 ∧
       ContractReport.bytecode c1 = ContractReport.bytecode c2 ∧
       ContractReport.metadata c1 = ContractReport.metadata c2))
    (FileReport.contract_reports fr1) (FileReport.contract_reports fr2) →
  format_report fr1 = format_report fr2.
Proof.
  intros Hfile Hcrs. unfold format_report. rewrite Hfile.
  destruct Hcrs as [crs1 crs2 Hcrs|]; [|done].
  rewrite !format_report_fold. f_equal. f_equal.
  induction Hcrs as [|c1 c2 crs1 crs2 (Hname & Hbyte & Hmeta) _ IH]; [done|].
  simpl. by rewrite Hname, Hbyte, Hmeta, IH.
Qed.

End report_independence.

(** ** The compiler input *)

Lemma no_slash_cons (c : ascii) (part : string) :
  c ≠ "/"%char →
  str_contains "/" part = false →
  str_contains "/" (String c part) = false.
Proof.
  intros Hc Hpart. cbn [str_contains]. apply orb_false_iff. split; [|done].
  rewrite prefix_cons. by rewrite bool_decide_eq_false_2 by congruence.
Qed.

Lemma str_split_slash_no_slash s :
  Forall (λ part, str_contains "/" part = false) (str_split_slash s).
Proof.
  induction s as [|c s IH]; [by repeat constructor|].
  cbn [str_split_slash]. destruct (Ascii.eqb_spec c "/") as [->|Hc].
  - by constructor.
  - destruct IH as [|part parts Hpart Hparts].
    + repeat constructor. by apply no_slash_cons.
    + constructor; [by apply no_slash_cons|done].
Qed.

Lemma path_name_no_slash s : str_contains "/" (path_name (Path_of_str s)) = false.
Proof.
  unfold path_name, Path_of_str. cbn [path_parts].
  destruct (last _) as [part|] eqn:Hlast; [|done].
  apply last_Some_elem_of, list_elem_of_filter in Hlast as [_ Hin].
  pose proof (str_split_slash_no_slash s) as Hall.
  rewrite Forall_forall in Hall. by apply Hall.
Qed.

Section compiler_input.
Context `{Host}.

Lemma json_input_ok (name content : string) (optimize : bool) (smt_use : SMTUse) :
  json_input name content optimize smt_use =
  Ok (JDict [
    ("language", JStr "Solidity");
    ("sources", JDict [(name, JDict [("content", JStr content)])]);
    ("settings", JDict (
       [("optimizer", JDict [("enabled", JBool optimize)]);
        ("outputSelection",
          JDict [("*", JDict [("*", JList [JStr "evm.bytecode.object";
                                          JStr "metadata"])])])] ++
       if decide (smt_use = DISABLE)
       then [("modelChecker", JDict [("engine", JStr "none")])]
       else []))]).
Proof. unfold json_input. by destruct smt_use. Qed.

(** C6. Whenever the source can be loaded, the document that
    [prepare_compiler_input] serializes has, in its [settings], the entry
    [modelChecker] with [engine] equal to [none] exactly when the mode is
    [DISABLE]; in the modes [PRESERVE] and [STRIP_PRAGMAS] the [settings]
    have no [modelChecker] key. *)
Theorem model_checker_disabled_iff_disable
    (compiler_path : Path) (source_file_name : string) (optimize : bool)
    (smt_use : SMTUse) (content : string) :
  load_source source_file_name smt_use = Ok content →
  ∃ entries settings : list (string * json),
    json_input source_file_name content optimize smt_use = Ok (JDict entries) ∧
    prepare_compiler_input compiler_path source_file_name optimize smt_use
      = Ok ([path_str compiler_path; "--standard-json"], json_dumps (JDict entries)) ∧
    dict_lookup "settings" entries = Some (JDict settings) ∧
    (dict_lookup "modelChecker" settings = Some (JDict [("engine", JStr "none")])
       ↔ smt_use = DISABLE) ∧
    (smt_use ≠ DISABLE → dict_lookup "modelChecker" settings = None).
Proof.
  intros Hload. eexists _, _. split; [apply json_input_ok|].
  split; [|split; [reflexivity|]].
  - unfold prepare_compiler_input. rewrite Hload. cbn [mbind result_bind].
    by rewrite json_input_ok.
  - by destruct smt_use.
Qed.

(** C7. For every source path [s] handed to [run_compiler], the name given
    to the input builder is the base name of the path, which has no
    directory separator in it; the [sources] mapping of the document the
    builder serializes has that base name as its only key, so the key may
    differ from the path ([contracts/a.sol] is keyed [a.sol]); the command
    line is the compiler path followed by [--standard-json]; and the
    compiler is run on that command line and payload. *)
Theorem payload_keyed_by_base_name
    (compiler_path : Path) (s : string) (optimize : bool) (smt_use : SMTUse)
    (content : string) :
  let source_file_name := Path_of_str s in
  load_source (path_name source_file_name) smt_use = Ok content →
  str_contains "/" (path_name source_file_name) = false ∧
  path_name (Path_of_str "contracts/a.sol") = "a.sol" ∧
  ∃ entries : list (string * json),
    json_input (path_name source_file_name) content optimize smt_use
      = Ok (JDict entries) ∧
    dict_lookup "sources" entries
      = Some (JDict [(path_name source_file_name, JDict [("content", JStr content)])]) ∧
    prepare_compiler_input compiler_path (path_name source_file_name) optimize smt_use
      = Ok ([path_str compiler_path; "--standard-json"], json_dumps (JDict entries)) ∧
    run_compiler compiler_path source_file_name optimize smt_use
      = (subprocess_run [path_str compiler_path; "--standard-json"]
           (json_dumps (JDict entries))
         ≫= parse_standard_json_output source_file_name).
Proof.
  intros source_file_name Hload.
  split; [apply path_name_no_slash|]. split; [done|].
  pose proof (json_input_ok (path_name source_file_name) content optimize smt_use)
    as Hdoc.
  match type of Hdoc with _ = Ok (JDict ?e) => set (entries := e) in * end.
  assert (prepare_compiler_input compiler_path (path_name source_file_name)
            optimize smt_use = Ok ([path_str compiler_path; "--standard-json"],
              json_dumps (JDict entries))) as Hprep.
  { unfold prepare_compiler_input. rewrite Hload. cbn [mbind result_bind].
    by rewrite Hdoc. }
  exists entries. split; [exact Hdoc|]. split; [reflexivity|].
  split; [exact Hprep|].
  unfold run_compiler. by rewrite Hprep.
Qed.

End compiler_input.

(** ** Sorting *)

#[global] Instance item_le_trans : Transitive item_le.
Proof. intros x y z. unfold item_le. apply transitivity. Qed.

#[global] Instance item_le_total : Total item_le.
Proof. intros x y. unfold item_le. apply total, _. Qed.

Lemma sorted_Permutation (l : list string) : sorted l ≡ₚ l.
Proof. apply merge_sort_Permutation. Qed.

Lemma sorted_StronglySorted (l : list string) : StronglySorted String.le (sorted l).
Proof. apply StronglySorted_merge_sort; apply _. Qed.

(** The sorted list of names depends on the names only, not on their order. *)
Lemma sorted_unique (l1 l2 : list string) : l1 ≡ₚ l2 → sorted l1 = sorted l2.
Proof.
  intros Hperm. apply (StronglySorted_unique String.le).
  - apply sorted_StronglySorted.
  - apply sorted_StronglySorted.
  - by rewrite !sorted_Permutation.
Qed.

Lemma sorted_items_Permutation (d : list (string * json)) : sorted_items d ≡ₚ d.
Proof. apply merge_sort_Permutation. Qed.

Lemma sorted_items_StronglySorted (d : list (string * json)) :
  StronglySorted item_le (sorted_items d).
Proof. apply StronglySorted_merge_sort; apply _. Qed.

(** In a dict an entry is determined by its key. *)
Lemma dict_wf_entry_eq (d : list (string * json)) (x y : string * json) :
  dict_wf d → x ∈ d → y ∈ d → x.1 = y.1 → x = y.
Proof.
  unfold dict_wf, dict_keys. induction d as [|e d IH]; [by inversion 2|].
  rewrite fmap_cons, NoDup_cons, !elem_of_cons.
  intros [Hfresh Hnodup] [->|Hx] [->|Hy] Hkey; auto.
  - destruct Hfresh. rewrite Hkey. by apply list_elem_of_fmap_2.
  - destruct Hfresh. rewrite <- Hkey. by apply list_elem_of_fmap_2.
Qed.

Lemma dict_wf_Permutation (d1 d2 : list (string * json)) :
  d1 ≡ₚ d2 → dict_wf d1 → dict_wf d2.
Proof. unfold dict_wf, dict_keys. by intros ->. Qed.

(** A dict has one sorted arrangement of its entries. *)
Lemma sorted_items_unique (d l : list (string * json)) :
  dict_wf d → l ≡ₚ d → StronglySorted item_le l → l = sorted_items d.
Proof.
  intros Hwf Hperm Hsorted.
  apply (StronglySorted_unique_strong item_le); [|done|..].
  - intros x y Hx Hy Hxy Hyx. apply (dict_wf_entry_eq d); [done|..].
    + by rewrite <- Hperm.
    + by rewrite <- (sorted_items_Permutation d).
    + by apply (anti_symm String.le).
  - apply sorted_items_StronglySorted.
  - by rewrite sorted_items_Permutation.
Qed.

Lemma sorted_items_Permutation_eq (d1 d2 : list (string * json)) :
  dict_wf d1 → d1 ≡ₚ d2 → sorted_items d1 = sorted_items d2.
Proof.
  intros Hwf Hperm. apply sorted_items_unique.
  - by apply (dict_wf_Permutation d1).
  - by rewrite sorted_items_Permutation.
  - apply sorted_items_StronglySorted.
Qed.

(** A pointwise relation between two lists survives a rearrangement of the
    first, up to a rearrangement of the second. *)
Lemma Forall2_Permutation_l {A B} (R : A → B → Prop) (l1 l1' : list A) (l2 : list B) :
  l1 ≡ₚ l1' → Forall2 R l1 l2 → ∃ l2', l2 ≡ₚ l2' ∧ Forall2 R l1' l2'.
Proof.
  intros Hperm. revert l2.
  induction Hperm as [|x l1 l1' _ IH|x y l1|l1 l1' l1'' _ IH1 _ IH2]; intros l2 HR.
  - inversion_clear HR. by exists [].
  - inversion_clear HR as [|? b ? l2' Hxb Hrest].
    destruct (IH _ Hrest) as (l2'' & Hp & HR'). exists (b :: l2''). split.
    + by constructor.
    + by constructor.
  - inversion_clear HR as [|? b ? l2' Hyb Hrest].
    inversion_clear Hrest as [|? b' ? l2'' Hxb Hrest'].
    exists (b' :: b :: l2''). split; [apply perm_swap|by repeat constructor].
  - destruct (IH1 _ HR) as (l2' & Hp1 & HR1).
    destruct (IH2 _ HR1) as (l2'' & Hp2 & HR2).
    exists l2''. split; [by etrans|done].
Qed.

(** ** Parsing the compiler output *)

Section parse_facts.
Context `{Host}.

(** The inner loop appends one report per contract, in the order given. *)
Lemma for_each_contracts (file_name : string) (items : list (string * json))
    (acc res : list ContractReport) :
  for_each items
    (λ reports '(contract_name, contract_results),
       contract_report ← contract_report_of file_name contract_name contract_results;
       mret (reports ++ [contract_report])) acc = Ok res →
  ∃ new, res = acc ++ new ∧
    Forall2 (λ r (y : string * json), contract_report_of file_name y.1 y.2 = Ok r)
      new items.
Proof.
  revert acc. induction items as [|[cn cr] items IH]; intros acc Hrun.
  - injection Hrun as <-. exists []. by rewrite app_nil_r.
  - cbn [for_each mbind result_bind] in Hrun.
    destruct (contract_report_of file_name cn cr) as [r|e] eqn:Hr; [|done].
    cbn [mbind result_bind mret result_ret] in Hrun.
    destruct (IH _ Hrun) as (new & -> & Hnew).
    exists (r :: new). split; [by rewrite <- app_assoc|by constructor].
Qed.

Lemma for_each_files (files : list (string * json)) (acc res : list ContractReport) :
  for_each files
    (λ reports '(file_name, file_results),
       contracts_of_file ← py_items file_results;
       for_each (sorted_items contracts_of_file)
         (λ reports '(contract_name, contract_results),
            contract_report ←
              contract_report_of file_name contract_name contract_results;
            mret (reports ++ [contract_report]))
         reports) acc = Ok res →
  ∃ new, res = acc ++ new ∧
    Forall2 (λ r (v : string * string * json),
               contract_report_of v.1.1 v.1.2 v.2 = Ok r) new (visited files).
Proof.
  revert acc. induction files as [|[fk fv] files IH]; intros acc Hrun.
  - injection Hrun as <-. exists []. by rewrite app_nil_r.
  - cbn [for_each mbind result_bind] in Hrun.
    destruct fv as [| | | | |l|m]; try done.
    cbn [py_items mbind result_bind] in Hrun.
    destruct (for_each (sorted_items m) _ acc) as [mid|e] eqn:Hinner; [|done].
    apply for_each_contracts in Hinner as (new1 & -> & Hnew1).
    destruct (IH _ Hrun) as (new2 & -> & Hnew2).
    exists (new1 ++ new2). split; [by rewrite <- app_assoc|].
    unfold visited. rewrite bind_cons. apply Forall2_app; [|done].
    cbn [fst snd json_entries]. by apply Forall2_fmap_r.
Qed.

Lemma visited_Permutation (c : list (string * json)) :
  visited (sorted_items c) ≡ₚ contract_pairs c.
Proof.
  unfold visited, contract_pairs. rewrite sorted_items_Permutation.
  induction c as [|file c IH]; [done|].
  rewrite !bind_cons. f_equiv; [|done].
  by rewrite sorted_items_Permutation.
Qed.

Lemma visited_StronglySorted (files : list (string * json)) :
  StronglySorted item_le files → dict_wf files →
  StronglySorted pair_le (visited files).
Proof.
  unfold dict_wf, dict_keys.
  induction 1 as [|file files Hsorted IH Hfile]; intros Hwf; [constructor|].
  rewrite fmap_cons, NoDup_cons in Hwf. destruct Hwf as [Hfresh Hwf].
  unfold visited. rewrite bind_cons. apply StronglySorted_app_2; [| |by apply IH].
  - intros x y [cx [-> Hx]]%list_elem_of_fmap Hy.
    apply list_elem_of_bind in Hy as (file' & [cy [-> Hcy]]%list_elem_of_fmap & Hfile').
    left. cbn [fst snd]. split.
    + rewrite Forall_forall in Hfile. by apply Hfile.
    + intros Heq. apply Hfresh. rewrite Heq. by apply list_elem_of_fmap_2.
  - apply (StronglySorted_fmap _ item_le); [|apply sorted_items_StronglySorted].
    intros x y Hxy. right. by cbn [fst snd].
Qed.

Lemma for_each_files_reordered (l1 l2 : list (string * json))
    (acc : list ContractReport) :
  Forall2 (λ x y : string * json,
    x.1 = y.1 ∧
    (x.2 = y.2 ∨
     ∃ m n, x.2 = JDict m ∧ y.2 = JDict n ∧ sorted_items m = sorted_items n)) l1 l2 →
  for_each l1
    (λ reports '(file_name, file_results),
       contracts_of_file ← py_items file_results;
       for_each (sorted_items contracts_of_file)
         (λ reports '(contract_name, contract_results),
            contract_report ←
              contract_report_of file_name contract_name contract_results;
            mret (reports ++ [contract_report]))
         reports) acc
  = for_each l2
    (λ reports '(file_name, file_results),
       contracts_of_file ← py_items file_results;
       for_each (sorted_items contracts_of_file)
         (λ reports '(contract_name, contract_results),
            contract_report ←
              contract_report_of file_name contract_name contract_results;
            mret (reports ++ [contract_report]))
         reports) acc.
Proof.
  intros Hrel. revert acc.
  induction Hrel as [|[k1 v1] [k2 v2] l1 l2 [Hk Hv] _ IH]; intros acc; [done|].
  cbn [fst snd] in Hk, Hv. subst k2. cbn [for_each].
  destruct Hv as [->|(m & n & -> & -> & Hmn)].
  - destruct (py_items v2) as [items|e]; [|done].
    cbn [mbind result_bind].
    destruct (for_each (sorted_items items) _ acc); [exact (IH _)|done].
  - cbn [py_items mbind result_bind]. rewrite Hmn.
    destruct (for_each (sorted_items n) _ acc); [exact (IH _)|done].
Qed.

Lemma same_value_sorted_items (v w : json) :
  dict_wf (json_entries v) → same_value v w →
  v = w ∨ ∃ m n, v = JDict m ∧ w = JDict n ∧ sorted_items m = sorted_items n.
Proof.
  intros Hwf Hsame. revert Hwf.
  destruct Hsame as [m n Hperm|v]; intros Hwf; [|by left]. right. exists m, n.
  split; [done|]. split; [done|]. apply sorted_items_Permutation_eq; [exact Hwf|done].
Qed.

Lemma parse_decoded_contracts (f : Path) (d c : list (string * json)) :
  dict_lookup "contracts" d = Some (JDict c) →
  parse_decoded f (JDict d) =
  (contract_reports ←
     for_each (sorted_items c) (λ reports '(file_name, file_results),
       contracts_of_file ← py_items file_results;
       for_each (sorted_items contracts_of_file)
         (λ reports '(contract_name, contract_results),
            contract_report ←
              contract_report_of file_name contract_name contract_results;
            mret (reports ++ [contract_report]))
         reports) [];
   mret (FileReport.mk f (Some contract_reports))).
Proof.
  intros Hc. unfold parse_decoded. cbn [py_in py_getitem mbind result_bind].
  rewrite Hc. by rewrite bool_decide_eq_true_2 by eauto.
Qed.

Lemma reordered_sorted_items (c1 c2 : list (string * json)) :
  contracts_wf c1 → reordered c1 c2 →
  Forall2 (λ x y : string * json,
    x.1 = y.1 ∧
    (x.2 = y.2 ∨
     ∃ m n, x.2 = JDict m ∧ y.2 = JDict n ∧ sorted_items m = sorted_items n))
    (sorted_items c1) (sorted_items c2).
Proof.
  intros [Hwf Hinner] (c & Hperm & Hrel).
  assert (c ≡ₚ sorted_items c1) as Hperm'.
  { by rewrite sorted_items_Permutation. }
  destruct (Forall2_Permutation_l _ _ _ _ Hperm' Hrel) as (c2' & Hperm2 & Hrel').
  assert ((sorted_items c1).*1 = c2'.*1) as Hkeys.
  { clear -Hrel'. induction Hrel' as [|x y l l' [Hk _] _ IH]; [done|].
    by rewrite !fmap_cons, Hk, IH. }
  assert (c2' = sorted_items c2) as <-.
  { apply sorted_items_unique; [|done|].
    - unfold dict_wf, dict_keys. rewrite Hperm2, <- Hkeys, sorted_items_Permutation.
      apply Hwf.
    - pose proof (sorted_items_StronglySorted c1) as Hsorted.
      clear -Hrel' Hsorted. induction Hrel' as [|x y l l' [Hk _] Hrest IH];
        [constructor|].
      apply StronglySorted_cons in Hsorted as [Hx Hsorted].
      apply StronglySorted_cons. split; [|by apply IH].
      clear -Hx Hrest Hk. induction Hrest as [|x' y' l l' [Hk' _] _ IH];
        [constructor|].
      inversion_clear Hx. constructor; [|by apply IH].
      unfold item_le in *. by rewrite <- Hk, <- Hk'. }
  assert (Forall (λ file, dict_wf (json_entries file.2)) (sorted_items c1)) as Hinner'.
  { by rewrite sorted_items_Permutation. }
  clear -Hrel' Hinner'.
  induction Hrel' as [|x y l l' [Hk Hv] _ IH]; [constructor|].
  inversion_clear Hinner'. constructor; [|by apply IH].
  split; [done|]. by apply same_value_sorted_items.
Qed.

Lemma parse_standard_json_output_contracts (f : Path) (raw : string)
    (d c : list (string * json)) :
  json_loads (strip raw) = Some (JDict d) →
  dict_lookup "contracts" d = Some (JDict c) →
  parse_standard_json_output f raw =
  (contract_reports ←
     for_each (sorted_items c) (λ reports '(file_name, file_results),
       contracts_of_file ← py_items file_results;
       for_each (sorted_items contracts_of_file)
         (λ reports '(contract_name, contract_results),
            contract_report ←
              contract_report_of file_name contract_name contract_results;
            mret (reports ++ [contract_report]))
         reports) [];
   mret (FileReport.mk f (Some contract_reports))).
Proof.
  intros Hloads Hc. unfold parse_standard_json_output. rewrite Hloads.
  by apply parse_decoded_contracts.
Qed.

(** C3. Take a decoded document with a [contracts] mapping.  When
    [parse_standard_json_output] returns a file report, its contract reports
    are those of the (inner-file, contract) pairs of the mapping, listed in
    sorted order by inner-file key and then by contract key.  A document
    that lists the same files and contracts in another order is parsed to
    the same result.  In particular a document whose [contracts] are the
    two contracts [C1] and [C2] of [a.sol], in either order, is parsed to
    the report of [C1] followed by the report of [C2]. *)
Theorem contract_reports_in_sorted_order
    (f : Path) (raw1 raw2 : string) (d1 d2 c1 c2 : list (string * json)) :
  json_loads (strip raw1) = Some (JDict d1) →
  dict_lookup "contracts" d1 = Some (JDict c1) →
  contracts_wf c1 →
  json_loads (strip raw2) = Some (JDict d2) →
  dict_lookup "contracts" d2 = Some (JDict c2) →
  reordered c1 c2 →
  (∀ fr : FileReport,
     parse_standard_json_output f raw1 = Ok fr →
     ∃ (pairs : list (string * string * json)) (crs : list ContractReport),
       fr = FileReport.mk f (Some crs) ∧
       pairs ≡ₚ contract_pairs c1 ∧
       StronglySorted pair_le pairs ∧
       Forall2 (λ cr (p : string * string * json),
                  contract_report_of p.1.1 p.1.2 p.2 = Ok cr) crs pairs) ∧
  parse_standard_json_output f raw2 = parse_standard_json_output f raw1 ∧
  (∀ (raw : string) (d m : list (string * json)) (r1 r2 : json)
     (cr1 cr2 : ContractReport),
     json_loads (strip raw) = Some (JDict d) →
     dict_lookup "contracts" d = Some (JDict [("a.sol", JDict m)]) →
     m ≡ₚ [("C1", r1); ("C2", r2)] →
     contract_report_of "a.sol" "C1" r1 = Ok cr1 →
     contract_report_of "a.sol" "C2" r2 = Ok cr2 →
     parse_standard_json_output f raw = Ok (FileReport.mk f (Some [cr1; cr2]))).
Proof.
  intros Hloads1 Hc1 Hwf Hloads2 Hc2 Hre. split; [|split].
  - intros fr Hparse.
    rewrite (parse_standard_json_output_contracts _ _ _ _ Hloads1 Hc1) in Hparse.
    destruct (for_each (sorted_items c1) _ []) as [crs|e] eqn:Hloop; [|done].
    injection Hparse as <-.
    apply for_each_files in Hloop as (new & -> & Hnew).
    exists (visited (sorted_items c1)), new. split; [done|].
    split; [apply visited_Permutation|]. split; [|done].
    apply visited_StronglySorted; [apply sorted_items_StronglySorted|].
    apply (dict_wf_Permutation c1); [by rewrite sorted_items_Permutation|apply Hwf].
  - rewrite (parse_standard_json_output_contracts _ _ _ _ Hloads1 Hc1).
    rewrite (parse_standard_json_output_contracts _ _ _ _ Hloads2 Hc2).
    by rewrite (for_each_files_reordered _ _ [] (reordered_sorted_items _ _ Hwf Hre)).
  - intros raw d m r1 r2 cr1 cr2 Hloads Hc Hm Hcr1 Hcr2.
    rewrite (parse_standard_json_output_contracts _ _ _ _ Hloads Hc).
    assert (sorted_items m = [("C1", r1); ("C2", r2)]) as Hsorted.
    { symmetry. apply sorted_items_unique.
      - unfold dict_wf, dict_keys. rewrite Hm.
        apply (bool_decide_unpack _). by vm_compute.
      - done.
      - repeat constructor. }
    change (sorted_items [("a.sol", JDict m)]) with [("a.sol", JDict m)].
    cbn [for_each py_items mbind result_bind]. rewrite Hsorted.
    cbn [for_each mbind result_bind]. rewrite Hcr1.
    cbn [for_each mbind result_bind mret result_ret app]. by rewrite Hcr2.
Qed.

End parse_facts.

(** The statement of C3 on the two example outputs, which list the
    contracts [C2], [C1] and [C1], [C2]. *)
Lemma contract_reports_in_sorted_order_witness :
  (contracts_wf demo_contracts ∧ reordered demo_contracts demo_contracts_sorted) ∧
  (∀ fr : FileReport,
     parse_standard_json_output (H:=demo_host) (Path_of_str "A.sol") demo_output_two
       = Ok fr →
     ∃ (pairs : list (string * string * json)) (crs : list ContractReport),
       fr = FileReport.mk (Path_of_str "A.sol") (Some crs) ∧
       pairs ≡ₚ contract_pairs demo_contracts ∧
       StronglySorted pair_le pairs ∧
       Forall2 (λ cr (p : string * string * json),
                  contract_report_of p.1.1 p.1.2 p.2 = Ok cr) crs pairs) ∧
  parse_standard_json_output (H:=demo_host) (Path_of_str "A.sol") demo_output_two_sorted
    = parse_standard_json_output (H:=demo_host) (Path_of_str "A.sol") demo_output_two.
Proof.
  assert (contracts_wf demo_contracts) as Hwf.
  { split; [apply (bool_decide_unpack _); by vm_compute|].
    constructor; [|constructor]. apply (bool_decide_unpack _). by vm_compute. }
  assert (reordered demo_contracts demo_contracts_sorted) as Hre.
  { exists demo_contracts. split; [done|].
    repeat constructor. }
  split; [done|].
  pose proof (contract_reports_in_sorted_order (H:=demo_host) (Path_of_str "A.sol")
    demo_output_two demo_output_two_sorted
    [("contracts", JDict demo_contracts)] [("contracts", JDict demo_contracts_sorted)]
    demo_contracts demo_contracts_sorted
    eq_refl eq_refl Hwf eq_refl eq_refl Hre) as (Hsorted & Hsame & _).
  split; [exact Hsorted|exact Hsame].
Defined.

(** ** Failures of the parser *)

(** Case analysis on the first call of a sequence of calls that may raise. *)
Ltac case_call H E :=
  cbn [mbind result_bind mret result_ret] in H;
  lazymatch type of H with
  | mbind _ ?m = _ => destruct m eqn:E; cbn [mbind result_bind mret result_ret] in H
  end.

Section parse_failures.
Context `{Host}.

Lemma py_get_raise (o : json) (k : string) (dflt : json) (e : exn) :
  py_get o k dflt = Raise e → e = AttributeError.
Proof. destruct o; simpl; congruence. Qed.

Lemma contract_report_of_raise (file_name contract_name : string)
    (contract_results : json) (e : exn) :
  contract_report_of file_name contract_name contract_results = Raise e →
  e = AttributeError.
Proof.
  unfold contract_report_of. intros Hraise.
  case_call Hraise H1; [|apply py_get_raise in H1; congruence].
  case_call Hraise H2; [|apply py_get_raise in H2; congruence].
  case_call Hraise H3; [|apply py_get_raise in H3; congruence].
  case_call Hraise H4; [|apply py_get_raise in H4; congruence].
  done.
Qed.

(** A loop raises what its body raises. *)
Lemma for_each_raise {A S : Type} (P : exn → Prop) (l : list A)
    (body : S → A → result S) (acc : S) (e : exn) :
  (∀ acc' x e', body acc' x = Raise e' → P e') →
  for_each l body acc = Raise e → P e.
Proof.
  intros Hbody. revert acc. induction l as [|x l IH]; intros acc; [done|].
  cbn [for_each]. destruct (body acc x) as [acc'|e'] eqn:Hx.
  - apply IH.
  - intros [= <-]. by eapply Hbody.
Qed.

(** Past the decoder, the parser fails on a document of an unexpected
    shape only, with a [TypeError] or an [AttributeError]. *)
Lemma parse_decoded_raise (f : Path) (doc : json) (e : exn) :
  parse_decoded f doc = Raise e → e = TypeError ∨ e = AttributeError.
Proof.
  unfold parse_decoded. intros Hraise.
  case_call Hraise Hin.
  2:{ injection Hraise as ->. destruct doc; simplify_eq/=; by left. }
  match type of Hin with _ = Ok ?b => destruct b end;
    cbn [negb] in Hraise; [|done].
  case_call Hraise Hget.
  2:{ injection Hraise as ->. destruct doc as [| | | | | |d];
        try (injection Hget as <-; by left).
      cbn [py_in py_getitem] in Hin, Hget.
      destruct (dict_lookup "contracts" d); [done|].
      by injection Hin. }
  case_call Hraise Hitems.
  2:{ injection Hraise as ->. right.
      match type of Hitems with py_items ?c = _ => destruct c end; by simplify_eq/=. }
  case_call Hraise Hloop; [done|].
  injection Hraise as ->. right.
  revert Hloop. apply (for_each_raise (λ e, e = AttributeError)).
  intros acc [file_name file_results] e' Hbody.
  case_call Hbody Hitems'.
  2:{ injection Hbody as ->. destruct file_results; by simplify_eq/=. }
  revert Hbody. apply (for_each_raise (λ e, e = AttributeError)).
  intros acc' [contract_name contract_results] e'' Hbody.
  case_call Hbody Hcr; [done|].
  injection Hbody as ->. by apply contract_report_of_raise in Hcr.
Qed.

(** C8. [parse_standard_json_output] fails with a decoding error exactly
    when the output, with the surrounding white space removed, is not a
    JSON document; in that case no file report is returned, and
    [run_compiler] fails with the same error when the compiler printed such
    an output. *)
Theorem decoding_error_iff_invalid_json (f : Path) (raw : string) :
  (parse_standard_json_output f raw = Raise JSONDecodeError
     ↔ json_loads (strip raw) = None) ∧
  (∀ (compiler_path : Path) (optimize : bool) (smt_use : SMTUse)
     (command_line : list string) (compiler_input : string),
     json_loads (strip raw) = None →
     prepare_compiler_input compiler_path (path_name f) optimize smt_use
       = Ok (command_line, compiler_input) →
     subprocess_run command_line compiler_input = Ok raw →
     run_compiler compiler_path f optimize smt_use = Raise JSONDecodeError).
Proof.
  assert (json_loads (strip raw) = None →
          parse_standard_json_output f raw = Raise JSONDecodeError) as Hfail.
  { intros Hloads. unfold parse_standard_json_output. by rewrite Hloads. }
  split; [split; [|done]|].
  - unfold parse_standard_json_output.
    destruct (json_loads (strip raw)) as [doc|]; [|done].
    intros [?|?]%parse_decoded_raise; done.
  - intros compiler_path optimize smt_use command_line compiler_input
      Hloads Hprepare Hrun.
    unfold run_compiler. rewrite Hprepare. cbn [mbind result_bind].
    rewrite Hrun. cbn [mbind result_bind]. by apply Hfail.
Qed.

End parse_failures.

(** ** The order of the report *)

Lemma io_for_app {A : Type} (l1 l2 : list A) (body : A → io unit) (w : world) :
  io_for (l1 ++ l2) body w = (io_for l1 body ;; io_for l2 body) w.
Proof.
  revert w. induction l1 as [|x l1 IH]; intros w; [done|].
  cbn [app io_for]. unfold mbind, io_bind.
  destruct (body x w) as [w' [[]|e]]; [apply IH|done].
Qed.

Lemma io_for_fmap {A B : Type} (g : A → B) (l : list A) (body : B → io unit)
    (w : world) :
  io_for (g <$> l) body w = io_for l (λ x, body (g x)) w.
Proof.
  revert w. induction l as [|x l IH]; intros w; [done|].
  cbn [fmap list_fmap io_for]. unfold mbind, io_bind.
  destruct (body (g x) w) as [w' [[]|e]]; [apply IH|done].
Qed.

(** The two nested loops are one loop over the pairs, the unoptimized runs
    of all files first. *)
Lemma io_for_levels (files : list string) (body : bool → string → io unit)
    (w : world) :
  io_for [false; true] (λ optimize, io_for files (body optimize)) w
  = io_for ((pair false <$> files) ++ (pair true <$> files))
      (λ job, body job.1 job.2) w.
Proof.
  rewrite io_for_app. cbn [io_for]. unfold mbind, io_bind.
  rewrite (io_for_fmap (pair false)). cbn [fst snd].
  destruct (io_for files (body false) w) as [w1 [[]|e]]; [|done].
  rewrite (io_for_fmap (pair true)). cbn [fst snd].
  by destruct (io_for files (body true) w1) as [w2 [[]|e]].
Qed.

Section report_order.
Context `{Host}.

Lemma process_ok compiler_path smt_use optimize source_file_name report w :
  run_compiler compiler_path (Path_of_str source_file_name) optimize smt_use
    = Ok report →
  process compiler_path smt_use optimize source_file_name w
  = (mkWorld (report_txt w +:+ format_report report) (stderr w), Ok tt).
Proof.
  intros Hrun. unfold process, io_try, mbind, io_bind, io_lift. by rewrite Hrun.
Qed.

Lemma process_raise compiler_path smt_use optimize source_file_name e w :
  run_compiler compiler_path (Path_of_str source_file_name) optimize smt_use
    = Raise e →
  ∃ err, process compiler_path smt_use optimize source_file_name w
         = (mkWorld (report_txt w) err, Raise e).
Proof.
  intros Hrun. unfold process, io_try, mbind, io_bind, io_lift. rewrite Hrun.
  destruct e; eexists; reflexivity.
Qed.

Lemma generate_report_jobs source_file_names compiler_path smt_use w :
  generate_report source_file_names compiler_path smt_use w
  = io_for ((pair false <$> sorted source_file_names) ++
            (pair true <$> sorted source_file_names))
      (λ job, process compiler_path smt_use job.1 job.2)
      (mkWorld "" (stderr w)).
Proof.
  unfold generate_report. unfold mbind at 1. unfold io_bind at 1.
  cbn [open_report]. apply io_for_levels.
Qed.

(** While the runs succeed, the loop appends their reports in order. *)
Lemma io_for_jobs_ok compiler_path smt_use (jobs : list (bool * string))
    (report_of : bool * string → FileReport) (w : world) :
  (∀ job, job ∈ jobs →
     run_compiler compiler_path (Path_of_str job.2) job.1 smt_use
       = Ok (report_of job)) →
  io_for jobs (λ job, process compiler_path smt_use job.1 job.2) w
  = (mkWorld (report_txt w +:+ str_concat (format_report ∘ report_of <$> jobs))
       (stderr w), Ok tt).
Proof.
  revert w. induction jobs as [|job jobs IH]; intros w Hruns.
  - cbn. rewrite str_app_nil_r. by destruct w.
  - cbn [io_for]. unfold mbind, io_bind.
    rewrite (process_ok _ _ _ _ (report_of job)) by (apply Hruns; by left).
    rewrite IH by (intros j Hj; apply Hruns; by right).
    cbn [report_txt stderr fmap list_fmap str_concat foldr compose].
    by rewrite str_app_assoc.
Qed.

(** The loop stops at the first run that fails. *)
Lemma io_for_jobs_raise compiler_path smt_use (finished rest : list (bool * string))
    (job : bool * string) (report_of : bool * string → FileReport) (e : exn)
    (w : world) :
  (∀ j, j ∈ finished →
     run_compiler compiler_path (Path_of_str j.2) j.1 smt_use = Ok (report_of j)) →
  run_compiler compiler_path (Path_of_str job.2) job.1 smt_use = Raise e →
  ∃ err,
    io_for (finished ++ job :: rest)
      (λ job, process compiler_path smt_use job.1 job.2) w
    = (mkWorld (report_txt w +:+ str_concat (format_report ∘ report_of <$> finished))
         err, Raise e).
Proof.
  intros Hruns Hjob. rewrite io_for_app. unfold mbind at 1. unfold io_bind at 1.
  rewrite (io_for_jobs_ok _ _ _ report_of) by done.
  cbn [io_for]. unfold mbind, io_bind.
  destruct (process_raise compiler_path smt_use job.1 job.2 e
              (mkWorld (report_txt w +:+
                 str_concat (format_report ∘ report_of <$> finished)) (stderr w))
              Hjob) as [err ->].
  by exists err.
Qed.

(** C4. [generate_report] runs the compiler on the pairs (optimization
    level, file) with the unoptimized level first and, within a level, the
    files in sorted order of their names.  When every run succeeds the
    report file holds the rendered file reports of all the pairs in that
    order; when a run fails it holds those of the pairs before it, and the
    failure is raised.  For the files [A.sol] and [B.sol], found in any
    order, the pairs are (false, A.sol), (false, B.sol), (true, A.sol),
    (true, B.sol). *)
Theorem generate_report_order (source_file_names : list string)
    (compiler_path : Path) (smt_use : SMTUse) (w : world) :
  let files := sorted source_file_names in
  let jobs := (pair false <$> files) ++ (pair true <$> files) in
  (files ≡ₚ source_file_names ∧ StronglySorted String.le files) ∧
  (∀ report_of : bool * string → FileReport,
     (∀ job, job ∈ jobs →
        run_compiler compiler_path (Path_of_str job.2) job.1 smt_use
          = Ok (report_of job)) →
     generate_report source_file_names compiler_path smt_use w
     = (mkWorld (str_concat (format_report ∘ report_of <$> jobs)) (stderr w),
        Ok tt)) ∧
  (∀ (report_of : bool * string → FileReport)
     (finished rest : list (bool * string)) (job : bool * string) (e : exn),
     jobs = finished ++ job :: rest →
     (∀ j, j ∈ finished →
        run_compiler compiler_path (Path_of_str j.2) j.1 smt_use
          = Ok (report_of j)) →
     run_compiler compiler_path (Path_of_str job.2) job.1 smt_use = Raise e →
     ∃ err,
       generate_report source_file_names compiler_path smt_use w
       = (mkWorld (str_concat (format_report ∘ report_of <$> finished)) err,
          Raise e)) ∧
  (source_file_names ≡ₚ ["A.sol"; "B.sol"] →
   jobs = [(false, "A.sol"); (false, "B.sol"); (true, "A.sol"); (true, "B.sol")]).
Proof.
  intros files jobs. split; [|split; [|split]].
  - split; [apply sorted_Permutation|apply sorted_StronglySorted].
  - intros report_of Hruns. rewrite generate_report_jobs.
    fold files. fold jobs. by rewrite (io_for_jobs_ok _ _ _ report_of).
  - intros report_of finished rest job e Hjobs Hruns Hjob.
    rewrite generate_report_jobs. fold files. fold jobs. rewrite Hjobs.
    destruct (io_for_jobs_raise compiler_path smt_use finished rest job report_of e
                (mkWorld "" (stderr w)) Hruns Hjob) as [err Herr].
    exists err. exact Herr.
  - intros Hperm. unfold jobs, files. by rewrite (sorted_unique _ _ Hperm).
Qed.

End report_order.

(** ** Stripping the directive *)

Lemma str_replace_go_skip (old new pre rest : string) :
  str_replace_go old new (String.length pre) (pre +:+ rest)
  = str_replace_go old new 0 rest.
Proof. induction pre as [|c pre IH]; [by destruct rest|]. by rewrite str_app_cons. Qed.

(** At an occurrence the scan emits the replacement and goes on behind it. *)
Lemma str_replace_go_match (old new rest : string) :
  old ≠ "" →
  str_replace_go old new 0 (old +:+ rest) = new +:+ str_replace_go old new 0 rest.
Proof.
  intros Hold. destruct old as [|c old']; [done|].
  rewrite str_app_cons. cbn [str_replace_go].
  rewrite <- str_app_cons.
  rewrite (proj2 (prefix_spec _ _)) by eauto.
  cbn [String.length].
  replace (S (String.length old') - 1) with (String.length old') by lia.
  f_equal. apply str_replace_go_skip.
Qed.

(** Elsewhere it keeps the character and moves on. *)
Lemma str_replace_go_keep (old new : string) (c : ascii) (s : string) :
  String.prefix old (String c s) = false →
  str_replace_go old new 0 (String c s) = String c (str_replace_go old new 0 s).
Proof. intros Hprefix. cbn [str_replace_go]. by rewrite Hprefix. Qed.

Lemma prefix_app_l (p a b : string) :
  String.prefix p a = true → String.prefix p (a +:+ b) = true.
Proof.
  rewrite !prefix_spec. intros [t ->]. exists (t +:+ b). by rewrite str_app_assoc.
Qed.

Lemma concat_cons (sep piece : string) (pieces : list string) :
  pieces ≠ [] →
  String.concat sep (piece :: pieces) = piece +:+ sep +:+ String.concat sep pieces.
Proof. by destruct pieces. Qed.

Lemma concat_cons_head (sep : string) (c : ascii) (piece : string)
    (pieces : list string) :
  String.concat sep (String c piece :: pieces)
  = String c (String.concat sep (piece :: pieces)).
Proof. by destruct pieces. Qed.

Lemma concat_head_prefix (sep piece : string) (pieces : list string) :
  ∃ t, String.concat sep (piece :: pieces) = piece +:+ t.
Proof.
  destruct pieces as [|p ps].
  - exists "". by rewrite str_app_nil_r.
  - by eexists.
Qed.

(** One pass of [replace] with nothing as the replacement: the text is cut
    at occurrences of [old], no piece between two cuts has an occurrence,
    and the result is the pieces put together. *)
Lemma str_replace_go_pieces (old : string) (n : nat) (s : string) :
  old ≠ "" →
  (String.length s ≤ n)%nat →
  ∃ pieces : list string,
    pieces ≠ [] ∧
    s = String.concat old pieces ∧
    Forall (λ piece, str_contains old piece = false) pieces ∧
    str_replace_go old "" 0 s = str_concat pieces.
Proof.
  intros Hold. revert s. induction n as [|n IH]; intros s Hlen.
  - destruct s; [|simpl in Hlen; lia].
    exists [""]. repeat split; [done|]. repeat constructor. by destruct old.
  - destruct s as [|c s].
    { exists [""]. repeat split; [done|]. repeat constructor. by destruct old. }
    destruct (String.prefix old (String c s)) eqn:Hprefix.
    + apply prefix_spec in Hprefix as [rest Hrest].
      destruct (IH rest) as (pieces & Hne & Hpieces & Hfree & Hgo).
      { assert (String.length (String c s)
                = (String.length old + String.length rest)%nat)
          as Hl by (by rewrite Hrest, str_length_app).
        destruct old; [done|]. simpl in Hl, Hlen. lia. }
      exists ("" :: pieces). split; [done|]. split; [|split].
      * rewrite concat_cons by done. by rewrite Hrest, <- Hpieces.
      * constructor; [by destruct old|done].
      * rewrite Hrest, str_replace_go_match by done. by rewrite Hgo.
    + destruct (IH s) as (pieces & Hne & Hpieces & Hfree & Hgo).
      { simpl in Hlen. lia. }
      destruct pieces as [|piece pieces]; [done|].
      exists (String c piece :: pieces). split; [done|]. split; [|split].
      * by rewrite concat_cons_head, <- Hpieces.
      * inversion_clear Hfree as [|? ? Hpiece Hrest].
        constructor; [|done]. cbn [str_contains]. rewrite Hpiece, orb_false_r.
        destruct (String.prefix old (String c piece)) eqn:Hp; [|done].
        destruct (concat_head_prefix old piece pieces) as [t Ht].
        rewrite <- Hprefix, Hpieces, Ht, <- str_app_cons. symmetry.
        by apply prefix_app_l.
      * rewrite str_replace_go_keep by done. by rewrite Hgo.
Qed.

Lemma str_replace_go_absent (old new s : string) :
  str_contains old s = false → str_replace_go old new 0 s = s.
Proof.
  induction s as [|c s IH]; [done|].
  cbn [str_contains]. intros [Hprefix Hrest]%orb_false_iff.
  rewrite str_replace_go_keep by done. by rewrite IH.
Qed.


(** *** Every occurrence is a cut

    The directive has no border: no proper, non-empty end of it is also a
    beginning of it.  Two occurrences of such a text cannot overlap, so the
    occurrences in a text are exactly the places where one scan cuts. *)

Lemma str_app_eq_split (s1 t1 s2 t2 : string) :
  s1 +:+ t1 = s2 +:+ t2 →
  (String.length s1 ≤ String.length s2)%nat →
  ∃ u, s2 = s1 +:+ u ∧ t1 = u +:+ t2.
Proof.
  revert s2. induction s1 as [|c s1 IH]; intros s2 Heq Hlen.
  - by exists s2.
  - destruct s2 as [|d s2]; [simpl in Hlen; lia|].
    rewrite !str_app_cons in Heq. injection Heq as -> Heq.
    destruct (IH s2 Heq) as (u & -> & ->); [simpl in Hlen; lia|].
    by exists u.
Qed.

Lemma str_length_zero (s : string) : String.length s = 0%nat → s = "".
Proof. by destruct s. Qed.

Lemma no_border_spec (p s v x : string) :
  no_border p s = true → s = x +:+ v → v ≠ "" → String.prefix v p = false.
Proof.
  revert x. induction s as [|c s IH]; intros x Hcheck Hs Hv.
  - destruct x, v; done.
  - cbn [no_border] in Hcheck. apply andb_true_iff in Hcheck as [Hhere Hrest].
    destruct x as [|d x].
    + change (String c s = v) in Hs. subst v. by apply negb_true_iff.
    + rewrite str_app_cons in Hs. injection Hs as _ Hs. by apply (IH x).
Qed.

(** A text without a border does not overlap a shifted copy of itself. *)
Lemma no_overlap (p u v w : string) :
  border_free p = true → p = u +:+ v → p = v +:+ w → u = "" ∨ v = "".
Proof.
  unfold border_free. intros Hfree Hsuffix Hprefix.
  destruct u as [|c u]; [by left|]. right.
  destruct v as [|d v]; [done|]. exfalso.
  destruct p as [|e p]; [done|].
  rewrite str_app_cons in Hsuffix. injection Hsuffix as _ Hp.
  pose proof (no_border_spec (String e p) p (String d v) u Hfree Hp) as Hno.
  rewrite (proj2 (prefix_spec _ _)) in Hno by eauto. by specialize (Hno ltac:(done)).
Qed.

(** In a text cut into pieces without the directive, every occurrence of
    the directive is one of the cuts. *)
Lemma occurrence_is_cut (p : string) (pieces : list string) (a b : string) :
  border_free p = true → p ≠ "" →
  Forall (λ piece, str_contains p piece = false) pieces →
  String.concat p pieces = a +:+ p +:+ b →
  ∃ before after : list string,
    pieces = before ++ after ∧ before ≠ [] ∧ after ≠ [] ∧
    a = String.concat p before ∧ b = String.concat p after.
Proof.
  intros Hfree Hp Hpieces. revert a.
  induction Hpieces as [|p0 rest Hp0 Hrest IH]; intros a Hocc.
  { cbn in Hocc. destruct a, p; done. }
  assert (∀ x y, p0 ≠ x +:+ p +:+ y) as Hp0'.
  { intros x y ->. apply not_true_iff_false in Hp0. apply Hp0.
    apply str_contains_spec. eauto. }
  destruct rest as [|p1 rest].
  { cbn in Hocc. by destruct (Hp0' a b). }
  rewrite concat_cons in Hocc by done.
  set (tail := String.concat p (p1 :: rest)) in *.
  destruct (decide (String.length a ≤ String.length p0)%nat) as [Hle|Hgt].
  - symmetry in Hocc.
    destruct (str_app_eq_split _ _ _ _ Hocc Hle) as (u & Hu & Hrest').
    destruct (decide (String.length p ≤ String.length u)%nat) as [Hpu|Hpu].
    + destruct (str_app_eq_split _ _ _ _ Hrest' Hpu) as (u' & -> & _).
      by destruct (Hp0' a u').
    + symmetry in Hrest'.
      destruct (str_app_eq_split u (p +:+ tail) p b Hrest') as (v & Hv & Hb);
        [lia|].
      assert (String.length v ≤ String.length p)%nat as Hvp.
      { rewrite Hv, str_length_app. lia. }
      destruct (str_app_eq_split v b p tail) as (w & Hw & _); [done..|].
      destruct (no_overlap p u v w Hfree Hv Hw) as [->| ->].
      * change (p = v) in Hv. subst v. rewrite str_app_nil_r in Hu. subst p0.
        apply (inj (String.app p)) in Hb.
        exists [a], (p1 :: rest). by repeat split.
      * rewrite str_app_nil_r in Hv. subst u. lia.
  - destruct (str_app_eq_split p0 (p +:+ tail) a (p +:+ b) Hocc) as (u & Hu & Htail);
      [lia|].
    destruct (decide (String.length p ≤ String.length u)%nat) as [Hpu|Hpu].
    + destruct (str_app_eq_split _ _ _ _ Htail Hpu) as (u' & -> & Htail').
      destruct (IH u' Htail') as (before & after & Hsplit & Hbefore & Hafter & -> & ->).
      exists (p0 :: before), after. rewrite Hsplit. repeat split; try done.
      rewrite Hu. by rewrite concat_cons.
    + symmetry in Htail.
      destruct (str_app_eq_split u (p +:+ b) p tail Htail) as (v & Hv & Hb); [lia|].
      assert (String.length v ≤ String.length p)%nat as Hvp.
      { rewrite Hv, str_length_app. lia. }
      symmetry in Hb.
      destruct (str_app_eq_split v tail p b) as (w & Hw & _); [done..|].
      destruct (no_overlap p u v w Hfree Hv Hw) as [->| ->].
      * rewrite str_app_nil_r in Hu. subst a. lia.
      * rewrite str_app_nil_r in Hv. subst u. lia.
Qed.

(** ** Line endings *)

Lemma str_contains_cr_nil : str_contains cr "" = false.
Proof. reflexivity. Qed.

Lemma str_contains_cr_cons c s :
  str_contains cr (String c s) = bool_decide (byte 13 = c) || str_contains cr s.
Proof.
  unfold cr. cbn [str_contains]. by rewrite prefix_cons, prefix_nil_l, andb_true_r.
Qed.

Lemma eqb_bool_decide (c d : ascii) : Ascii.eqb c d = bool_decide (d = c).
Proof.
  destruct (Ascii.eqb_spec c d) as [->|Hne].
  - by rewrite bool_decide_eq_true_2.
  - by rewrite bool_decide_eq_false_2.
Qed.

(** No carriage return is left in a text read. *)
Lemma universal_newlines_no_cr s : str_contains cr (universal_newlines s) = false.
Proof.
  remember (String.length s) as n eqn:Hn.
  assert (String.length s ≤ n)%nat as Hle by lia. clear Hn.
  revert s Hle. induction n as [|n IH]; intros [|c s] Hle; cbn in Hle;
    [done|lia|done|].
  cbn [universal_newlines]. destruct (Ascii.eqb_spec c (byte 13)) as [->|Hc].
  - destruct s as [|c' s]; [done|]. cbn in Hle.
    destruct (Ascii.eqb c' (byte 10)); rewrite str_contains_cr_cons;
      rewrite bool_decide_eq_false_2 by done; apply IH; cbn; lia.
  - rewrite str_contains_cr_cons, bool_decide_eq_false_2 by done.
    apply IH. lia.
Qed.

(** The text read is the bytes of the file exactly when they hold no
    carriage return. *)
Lemma universal_newlines_id_iff s :
  universal_newlines s = s ↔ str_contains cr s = false.
Proof.
  induction s as [|c s IH]; [done|].
  rewrite str_contains_cr_cons. cbn [universal_newlines].
  destruct (Ascii.eqb_spec c (byte 13)) as [->|Hc].
  - rewrite bool_decide_eq_true_2 by done. split; [|done].
    by destruct s as [|c' s]; [|destruct (Ascii.eqb c' (byte 10))].
  - rewrite bool_decide_eq_false_2 by done. rewrite <- IH.
    split; [by intros [= ?]|by intros ->].
Qed.

Section load_source_facts.
Context `{Host}.

(** C5, as the code has it.  The file is opened in text mode: the text
    that [load_source] works on is the content of the file, decoded, with
    every carriage return followed by a line feed and every other carriage
    return turned into one line feed.  It holds no carriage return, and it
    is the content of the file exactly when that holds none.  In the mode
    [STRIP_PRAGMAS], [load_source] removes every occurrence of the
    directive [pragma experimental SMTChecker;] that this text contains,
    in one pass: the text is pieces joined by the directive, no piece
    contains the directive, every occurrence of the directive in the text
    is one of the joints, and the result is the pieces put together with
    nothing between them.  What the pieces form where they meet is not
    looked at again.  A text without the directive is returned as it is.
    In every other mode, so in [PRESERVE], the text is returned
    unchanged: the content of the file with its line endings translated,
    not always the content itself. *)
Theorem load_source_strips_in_one_pass
    (path : string) (smt_use : SMTUse) (file_bytes file_content : string) :
  read_text path = text_mode_read (Ok file_bytes) →
  utf8_valid file_bytes = true →
  file_content = universal_newlines file_bytes →
  (∃ pieces : list string,
     file_content = String.concat "pragma experimental SMTChecker;" pieces ∧
     Forall (λ piece,
       str_contains "pragma experimental SMTChecker;" piece = false) pieces ∧
     (∀ a b : string,
        file_content = a +:+ "pragma experimental SMTChecker;" +:+ b →
        ∃ before after : list string,
          pieces = before ++ after ∧ before ≠ [] ∧ after ≠ [] ∧
          a = String.concat "pragma experimental SMTChecker;" before ∧
          b = String.concat "pragma experimental SMTChecker;" after) ∧
     load_source path STRIP_PRAGMAS = Ok (str_concat pieces)) ∧
  (str_contains "pragma experimental SMTChecker;" file_content = false →
   load_source path STRIP_PRAGMAS = Ok file_content) ∧
  (smt_use ≠ STRIP_PRAGMAS → load_source path smt_use = Ok file_content) ∧
  str_contains cr file_content = false ∧
  (file_content = file_bytes ↔ str_contains cr file_bytes = false).
Proof.
  intros Hread Hvalid Hcontent. unfold text_mode_read in Hread.
  rewrite Hvalid, <- Hcontent in Hread.
  unfold load_source. rewrite Hread. cbn [mbind result_bind].
  split; [|split; [|split; [|split]]].
  - destruct (str_replace_go_pieces "pragma experimental SMTChecker;"
                (String.length file_content) file_content)
      as (pieces & _ & Hpieces & Hfree & Hgo); [done..|].
    exists pieces. split; [done|]. split; [done|]. split.
    + intros a b Hocc. apply occurrence_is_cut; [done..|]. by rewrite <- Hpieces.
    + rewrite decide_True by done. unfold str_replace. by rewrite Hgo.
  - intros Habsent. rewrite decide_True by done.
    unfold str_replace. by rewrite str_replace_go_absent.
  - intros Hmode. by rewrite decide_False.
  - rewrite Hcontent. apply universal_newlines_no_cr.
  - rewrite Hcontent. apply universal_newlines_id_iff.
Qed.

End load_source_facts.

(** The statement above on the file [W.sol], which has carriage returns. *)
Lemma load_source_strips_in_one_pass_witness :
  read_text (Host:=disk_host) "W.sol" = text_mode_read (Ok demo_W_bytes) ∧
  utf8_valid demo_W_bytes = true ∧
  (∃ pieces : list string,
     "pragma experimental SMTChecker;" +:+ nl +:+ "contract W {}" +:+ nl
       = String.concat "pragma experimental SMTChecker;" pieces ∧
     Forall (λ piece,
       str_contains "pragma experimental SMTChecker;" piece = false) pieces ∧
     (∀ a b : string,
        "pragma experimental SMTChecker;" +:+ nl +:+ "contract W {}" +:+ nl
          = a +:+ "pragma experimental SMTChecker;" +:+ b →
        ∃ before after : list string,
          pieces = before ++ after ∧ before ≠ [] ∧ after ≠ [] ∧
          a = String.concat "pragma experimental SMTChecker;" before ∧
          b = String.concat "pragma experimental SMTChecker;" after) ∧
     load_source (H:=disk_host) "W.sol" STRIP_PRAGMAS = Ok (str_concat pieces)) ∧
  (str_contains "pragma experimental SMTChecker;"
     ("pragma experimental SMTChecker;" +:+ nl +:+ "contract W {}" +:+ nl) = false →
   load_source (H:=disk_host) "W.sol" STRIP_PRAGMAS
     = Ok ("pragma experimental SMTChecker;" +:+ nl +:+ "contract W {}" +:+ nl)) ∧
  (PRESERVE ≠ STRIP_PRAGMAS →
   load_source (H:=disk_host) "W.sol" PRESERVE
     = Ok ("pragma experimental SMTChecker;" +:+ nl +:+ "contract W {}" +:+ nl)) ∧
  str_contains cr
    ("pragma experimental SMTChecker;" +:+ nl +:+ "contract W {}" +:+ nl) = false ∧
  ("pragma experimental SMTChecker;" +:+ nl +:+ "contract W {}" +:+ nl
     = demo_W_bytes ↔ str_contains cr demo_W_bytes = false).
Proof.
  split; [reflexivity|]. split; [reflexivity|].
  apply (load_source_strips_in_one_pass (H:=disk_host) "W.sol" PRESERVE
           demo_W_bytes); reflexivity.
Defined.

(** The statement on the example file [B.sol], which has none. *)
Example load_source_B :
  load_source (H:=demo_host) "B.sol" STRIP_PRAGMAS = Ok "contract B {}" ∧
  load_source (H:=demo_host) "B.sol" PRESERVE
    = Ok "pragma experimental SMTChecker;contract B {}" ∧
  text_mode_read (Ok "pragma experimental SMTChecker;contract B {}")
    = Ok "pragma experimental SMTChecker;contract B {}".
Proof. by vm_compute. Qed.

(** In the mode [PRESERVE] the text returned for [W.sol] is not the
    content of the file: both carriage returns are gone. *)
Example preserve_translates_line_endings :
  demo_disk "W.sol"
    = Ok ("pragma experimental SMTChecker;" +:+ cr +:+ nl +:+ "contract W {}" +:+ cr) ∧
  load_source (H:=disk_host) "W.sol" PRESERVE
    = Ok ("pragma experimental SMTChecker;" +:+ nl +:+ "contract W {}" +:+ nl) ∧
  "pragma experimental SMTChecker;" +:+ nl +:+ "contract W {}" +:+ nl
    ≠ "pragma experimental SMTChecker;" +:+ cr +:+ nl +:+ "contract W {}" +:+ cr.
Proof. split; [|split]; [reflexivity..|by vm_compute]. Qed.

(** A file that is no UTF-8, and a file that is not there. *)
Example load_source_read_fails :
  load_source (H:=disk_host) "bad.sol" PRESERVE = Raise UnicodeDecodeError ∧
  load_source (H:=disk_host) "none.sol" STRIP_PRAGMAS = Raise OSError.
Proof. by vm_compute. Qed.

(** C5 as first stated, with no occurrence left in the result, fails: the
    file [N.sol] holds the directive inside another copy of itself; the
    inner copy is removed, and what is returned is the directive. *)
Lemma strip_pragmas_leaves_directive :
  read_text (Host:=demo_host) "N.sol"
    = Ok "pragma experimental SMTCheckpragma experimental SMTChecker;er;" ∧
  load_source (H:=demo_host) "N.sol" STRIP_PRAGMAS
    = Ok "pragma experimental SMTChecker;" ∧
  str_contains "pragma experimental SMTChecker;" "pragma experimental SMTChecker;"
    = true.
Proof. by vm_compute. Qed.

(** ** Instances of the statements above on the example host *)

Lemma no_contracts_key_gives_error_line_witness :
  parse_standard_json_output (H:=demo_host) (Path_of_str "A.sol") demo_output_error
    = Ok (FileReport.mk (Path_of_str "A.sol") None) ∧
  ∀ fr : FileReport,
    FileReport.contract_reports fr = None →
    format_report (H:=demo_host) fr
      = path_str (FileReport.file_name fr) +:+ ": <ERROR>" +:+ nl.
Proof.
  apply (no_contracts_key_gives_error_line (H:=demo_host) (Path_of_str "A.sol")
           demo_output_error [("errors", JList [])]); reflexivity.
Defined.

Lemma empty_contracts_gives_empty_report_witness :
  parse_standard_json_output (H:=demo_host) (Path_of_str "A.sol") demo_output_empty
    = Ok (FileReport.mk (Path_of_str "A.sol") (Some [])) ∧
  format_report (H:=demo_host) (FileReport.mk (Path_of_str "A.sol") (Some [])) = "" ∧
  format_report (H:=demo_host) (FileReport.mk (Path_of_str "A.sol") (Some []))
    ≠ format_report (H:=demo_host) (FileReport.mk (Path_of_str "A.sol") None).
Proof.
  apply (empty_contracts_gives_empty_report (H:=demo_host) (Path_of_str "A.sol")
           demo_output_empty [("contracts", JDict [])]); reflexivity.
Defined.

Lemma format_report_two_lines_per_contract_witness :
  FileReport.contract_reports demo_file_report = Some demo_contract_reports ∧
  ∃ lines : list (string * string),
    format_report (H:=demo_host) demo_file_report
      = str_concat (map (λ l, l.1 +:+ l.2) lines) ∧
    Forall2 (λ (cr : ContractReport) (l : string * string),
      let pre := path_str (FileReport.file_name demo_file_report) +:+ ":" +:+
                 ContractReport.contract_name cr +:+ " " in
      ∃ bytecode metadata : string,
        l.1 = pre +:+ bytecode +:+ nl ∧
        l.2 = pre +:+ metadata +:+ nl ∧
        (ContractReport.bytecode cr = JNull → bytecode = "<NO BYTECODE>") ∧
        (ContractReport.bytecode cr ≠ JNull →
           bytecode = py_str (H:=demo_host) (ContractReport.bytecode cr)) ∧
        (ContractReport.metadata cr = JNull → metadata = "<NO METADATA>") ∧
        (ContractReport.metadata cr ≠ JNull →
           metadata = py_str (H:=demo_host) (ContractReport.metadata cr)))
      demo_contract_reports lines ∧
    (line_count (path_str (FileReport.file_name demo_file_report)) = 0 →
     Forall (λ cr : ContractReport,
       line_count (ContractReport.contract_name cr) = 0 ∧
       line_count (py_str (H:=demo_host) (ContractReport.bytecode cr)) = 0 ∧
       line_count (py_str (H:=demo_host) (ContractReport.metadata cr)) = 0)
       demo_contract_reports →
     line_count (format_report (H:=demo_host) demo_file_report)
       = 2 * length demo_contract_reports).
Proof.
  split; [reflexivity|].
  apply (format_report_two_lines_per_contract (H:=demo_host) demo_file_report
           demo_contract_reports).
  reflexivity.
Defined.

Lemma format_report_ignores_contract_file_name_witness :
  format_report (H:=demo_host) demo_file_report
  = format_report (H:=demo_host)
      (FileReport.mk (Path_of_str "A.sol") (Some [
         ContractReport.mk "C1" (Path_of_str "b.sol") JNull (JStr "m");
         ContractReport.mk "C2" (Path_of_str "<stdin>") (JStr "6080") JNull])).
Proof.
  apply (format_report_ignores_contract_file_name (H:=demo_host)); [reflexivity|].
  constructor. repeat constructor.
Defined.

Lemma model_checker_disabled_iff_disable_witness :
  load_source (H:=demo_host) "B.sol" DISABLE
    = Ok "pragma experimental SMTChecker;contract B {}" ∧
  ∃ entries settings : list (string * json),
    json_input "B.sol" "pragma experimental SMTChecker;contract B {}" true DISABLE
      = Ok (JDict entries) ∧
    prepare_compiler_input (H:=demo_host) (Path_of_str "/usr/bin/solc") "B.sol"
        true DISABLE
      = Ok (["/usr/bin/solc"; "--standard-json"],
            json_dumps (Host:=demo_host) (JDict entries)) ∧
    dict_lookup "settings" entries = Some (JDict settings) ∧
    (dict_lookup "modelChecker" settings = Some (JDict [("engine", JStr "none")])
       ↔ DISABLE = DISABLE) ∧
    (DISABLE ≠ DISABLE → dict_lookup "modelChecker" settings = None).
Proof.
  split; [reflexivity|].
  apply (model_checker_disabled_iff_disable (H:=demo_host)
           (Path_of_str "/usr/bin/solc") "B.sol" true DISABLE).
  reflexivity.
Defined.

Lemma payload_keyed_by_base_name_witness :
  load_source (H:=demo_host) (path_name (Path_of_str "contracts/B.sol")) STRIP_PRAGMAS
    = Ok "contract B {}" ∧
  str_contains "/" (path_name (Path_of_str "contracts/B.sol")) = false ∧
  path_name (Path_of_str "contracts/a.sol") = "a.sol" ∧
  ∃ entries : list (string * json),
    json_input (path_name (Path_of_str "contracts/B.sol")) "contract B {}" false
        STRIP_PRAGMAS
      = Ok (JDict entries) ∧
    dict_lookup "sources" entries
      = Some (JDict [(path_name (Path_of_str "contracts/B.sol"),
                      JDict [("content", JStr "contract B {}")])]) ∧
    prepare_compiler_input (H:=demo_host) (Path_of_str "solc")
        (path_name (Path_of_str "contracts/B.sol")) false STRIP_PRAGMAS
      = Ok ([path_str (Path_of_str "solc"); "--standard-json"],
            json_dumps (Host:=demo_host) (JDict entries)) ∧
    run_compiler (H:=demo_host) (Path_of_str "solc") (Path_of_str "contracts/B.sol")
        false STRIP_PRAGMAS
      = (subprocess_run (Host:=demo_host)
           [path_str (Path_of_str "solc"); "--standard-json"]
           (json_dumps (Host:=demo_host) (JDict entries))
         ≫= parse_standard_json_output (H:=demo_host) (Path_of_str "contracts/B.sol")).
Proof.
  split; [reflexivity|].
  apply (payload_keyed_by_base_name (H:=demo_host) (Path_of_str "solc")
           "contracts/B.sol" false STRIP_PRAGMAS "contract B {}").
  reflexivity.
Defined.

(** * Further properties of the script *)

(** ** Rendering *)

Lemma str_concat_app (l1 l2 : list string) :
  str_concat (l1 ++ l2) = str_concat l1 +:+ str_concat l2.
Proof.
  induction l1 as [|s l1 IH]; [done|].
  cbn [app]. by rewrite !str_concat_cons, IH, str_app_assoc.
Qed.

Lemma str_app_eq_nil (s t : string) : s +:+ t = "" → s = "" ∧ t = "".
Proof. by destruct s. Qed.

Section rendering.
Context `{Host}.

(** X1. Rendering is additive: the text of a file report whose contract
    reports are two sequences one after the other is the text of the first
    sequence followed by the text of the second, under the same file
    name. *)
Theorem format_report_app (f : Path) (crs1 crs2 : list ContractReport) :
  format_report (FileReport.mk f (Some (crs1 ++ crs2)))
  = format_report (FileReport.mk f (Some crs1)) +:+
    format_report (FileReport.mk f (Some crs2)).
Proof.
  unfold format_report. cbn [FileReport.contract_reports FileReport.file_name].
  rewrite !format_report_fold. cbn [String.append].
  by rewrite map_app, str_concat_app.
Qed.

(** X2. A file report is rendered as the empty text exactly when its
    sequence of contract reports is present and empty: the error line and
    the lines of a contract are never empty. *)
Theorem format_report_empty_iff (fr : FileReport) :
  format_report fr = "" ↔ FileReport.contract_reports fr = Some [].
Proof.
  split; [|intros Hcrs; unfold format_report; by rewrite Hcrs].
  unfold format_report. destruct (FileReport.contract_reports fr) as [[|cr crs]|].
  - done.
  - rewrite format_report_fold. cbn [map]. rewrite str_concat_cons.
    intros Hempty. exfalso.
    apply str_app_eq_nil in Hempty as [_ Hempty].
    apply str_app_eq_nil in Hempty as [Hempty _].
    apply str_app_eq_nil in Hempty as [Hempty _].
    apply str_app_eq_nil in Hempty as [_ Hempty].
    by apply str_app_eq_nil in Hempty as [Hempty _].
  - intros Hempty. exfalso.
    apply str_app_eq_nil in Hempty as [_ Hempty].
    by apply str_app_eq_nil in Hempty as [Hempty _].
Qed.

End rendering.

(** ** Parsing *)

Lemma existsb_contracts (l : list json) :
  existsb (λ e, match e with JStr s => bool_decide (s = "contracts") | _ => false end) l
    = true
  ↔ JStr "contracts" ∈ l.
Proof.
  rewrite existsb_exists. split.
  - intros (e & Hin & He). destruct e; try done.
    apply bool_decide_eq_true in He as ->. by apply list_elem_of_In.
  - intros Hin. exists (JStr "contracts"). split; [by apply list_elem_of_In|].
    by apply bool_decide_eq_true.
Qed.

Lemma Forall_exists_Forall2 {A B} (R : B → A → Prop) (l : list A) :
  Forall (λ x, ∃ y, R y x) l → ∃ k, Forall2 R k l.
Proof.
  induction 1 as [|x l [y Hy] _ [k Hk]]; [by exists []|].
  exists (y :: k). by constructor.
Qed.

Section parsing.
Context `{Host}.

(** The inner loop, when every contract has a report. *)
Lemma for_each_contracts_ok (file_name : string) (items : list (string * json))
    (acc new : list ContractReport) :
  Forall2 (λ r (y : string * json), contract_report_of file_name y.1 y.2 = Ok r)
    new items →
  for_each items
    (λ reports '(contract_name, contract_results),
       contract_report ← contract_report_of file_name contract_name contract_results;
       mret (reports ++ [contract_report])) acc = Ok (acc ++ new).
Proof.
  intros Hnew. revert acc.
  induction Hnew as [|r [cn cr] new items Hr _ IH]; intros acc.
  - by rewrite app_nil_r.
  - cbn [for_each fst snd] in *. rewrite Hr. cbn [mbind result_bind mret result_ret].
    rewrite IH. by rewrite <- app_assoc.
Qed.

(** The outer loop, when every file has an object and every contract a
    report. *)
Lemma for_each_files_ok (files : list (string * json)) (acc new : list ContractReport) :
  Forall (λ file : string * json, ∃ m, file.2 = JDict m) files →
  Forall2 (λ r (v : string * string * json),
             contract_report_of v.1.1 v.1.2 v.2 = Ok r) new (visited files) →
  for_each files
    (λ reports '(file_name, file_results),
       contracts_of_file ← py_items file_results;
       for_each (sorted_items contracts_of_file)
         (λ reports '(contract_name, contract_results),
            contract_report ←
              contract_report_of file_name contract_name contract_results;
            mret (reports ++ [contract_report]))
         reports) acc = Ok (acc ++ new).
Proof.
  intros Hdicts. revert acc new.
  induction Hdicts as [|[fk fv] files [m Hm] _ IH]; intros acc new Hnew.
  - inversion_clear Hnew. by rewrite app_nil_r.
  - cbn [snd] in Hm. subst fv. unfold visited in Hnew. rewrite bind_cons in Hnew.
    apply Forall2_app_inv_r in Hnew as (new1 & new2 & Hnew1 & Hnew2 & ->).
    cbn [fst snd json_entries] in Hnew1. apply Forall2_fmap_r in Hnew1.
    cbn [for_each py_items mbind result_bind].
    rewrite (for_each_contracts_ok fk _ acc new1) by done.
    cbn [mbind result_bind]. rewrite (IH _ new2) by done. by rewrite <- app_assoc.
Qed.

(** The outer loop gets through only when every file has an object. *)
Lemma for_each_files_dicts (files : list (string * json))
    (acc res : list ContractReport) :
  for_each files
    (λ reports '(file_name, file_results),
       contracts_of_file ← py_items file_results;
       for_each (sorted_items contracts_of_file)
         (λ reports '(contract_name, contract_results),
            contract_report ←
              contract_report_of file_name contract_name contract_results;
            mret (reports ++ [contract_report]))
         reports) acc = Ok res →
  Forall (λ file : string * json, ∃ m, file.2 = JDict m) files.
Proof.
  revert acc. induction files as [|[fk fv] files IH]; intros acc Hrun; [constructor|].
  cbn [for_each] in Hrun. destruct fv as [| | | | | |m]; try done.
  cbn [py_items mbind result_bind] in Hrun.
  destruct (for_each (sorted_items m) _ acc) as [mid|e]; [|done].
  constructor; [by exists m|]. by apply (IH mid).
Qed.

Lemma visited_nil (files : list (string * json)) :
  visited files = [] ↔ Forall (λ file : string * json, json_entries file.2 = []) files.
Proof.
  unfold visited. induction files as [|file files IH].
  - split; [constructor|done].
  - rewrite bind_cons, Forall_cons, <- IH. split.
    + intros [Hfile Hrest]%app_eq_nil. split; [|done].
      apply fmap_nil_inv in Hfile. apply Permutation_nil_r.
      by rewrite <- Hfile, sorted_items_Permutation.
    + intros [Hfile Hrest]. rewrite Hfile, Hrest. done.
Qed.

Lemma Forall_sorted_items (P : string * json → Prop) (c : list (string * json)) :
  Forall P (sorted_items c) ↔ Forall P c.
Proof. by rewrite sorted_items_Permutation. Qed.

Lemma Forall_visited (P : string * string * json → Prop) (c : list (string * json)) :
  Forall P (visited (sorted_items c)) ↔ Forall P (contract_pairs c).
Proof. by rewrite visited_Permutation. Qed.

(** X3. The file report that [parse_standard_json_output] returns carries
    the file name it was called with, whatever files the output names; so
    the report of [run_compiler] carries the path of the source as the
    caller gave it, not the base name under which the source was sent to
    the compiler. *)
Theorem report_keeps_the_callers_path :
  (∀ (f : Path) (raw : string) (fr : FileReport),
     parse_standard_json_output f raw = Ok fr → FileReport.file_name fr = f) ∧
  (∀ (compiler_path source_file_name : Path) (optimize : bool) (smt_use : SMTUse)
     (fr : FileReport),
     run_compiler compiler_path source_file_name optimize smt_use = Ok fr →
     FileReport.file_name fr = source_file_name).
Proof.
  assert (∀ (f : Path) (raw : string) (fr : FileReport),
     parse_standard_json_output f raw = Ok fr → FileReport.file_name fr = f) as Hparse.
  { intros f raw fr. unfold parse_standard_json_output.
    destruct (json_loads (strip raw)) as [doc|]; [|done].
    unfold parse_decoded. intros Hrun.
    case_call Hrun Hin; [|done].
    match type of Hin with _ = Ok ?b => destruct b end; cbn [negb] in Hrun.
    - case_call Hrun Hget; [|done]. case_call Hrun Hitems; [|done].
      case_call Hrun Hloop; [|done]. by injection Hrun as <-.
    - by injection Hrun as <-. }
  split; [exact Hparse|].
  intros compiler_path source_file_name optimize smt_use fr. unfold run_compiler.
  intros Hrun. case_call Hrun Hprepare; [|done].
  match type of Hprepare with _ = Ok ?p => destruct p as [command_line compiler_input] end.
  case_call Hrun Hsub; [|done]. by apply Hparse in Hrun.
Qed.

(** X4. Of a decoded object the parser reads the [contracts] entry only:
    two outputs whose documents have the same [contracts] entry, or both
    none, are parsed to the same result, whatever else they hold (errors,
    sources). *)
Theorem parse_reads_contracts_only
    (f : Path) (raw1 raw2 : string) (d1 d2 : list (string * json)) :
  json_loads (strip raw1) = Some (JDict d1) →
  json_loads (strip raw2) = Some (JDict d2) →
  dict_lookup "contracts" d1 = dict_lookup "contracts" d2 →
  parse_standard_json_output f raw1 = parse_standard_json_output f raw2.
Proof.
  intros Hloads1 Hloads2 Hsame. unfold parse_standard_json_output.
  rewrite Hloads1, Hloads2. unfold parse_decoded.
  cbn [py_in py_getitem]. by rewrite Hsame.
Qed.

(** X5. A document that is not an object.  An array without the string
    [contracts] among its elements and a string without [contracts] inside
    it are taken for an output without contracts, and give the file report
    with the absent sequence; [None], a boolean, a number, an array with
    the element [contracts] and a string with [contracts] inside it make
    the parser fail with a [TypeError]. *)
Theorem parse_of_a_document_that_is_no_object
    (f : Path) (raw : string) (doc : json) :
  json_loads (strip raw) = Some doc →
  (∀ d, doc ≠ JDict d) →
  (parse_standard_json_output f raw = Ok (FileReport.mk f None) ∧
   ((∃ l, doc = JList l ∧ JStr "contracts" ∉ l) ∨
    (∃ s, doc = JStr s ∧ str_contains "contracts" s = false))) ∨
  (parse_standard_json_output f raw = Raise TypeError ∧
   (doc = JNull ∨ (∃ b, doc = JBool b) ∨ (∃ n, doc = JInt n) ∨ (∃ x, doc = JFloat x) ∨
    (∃ l, doc = JList l ∧ JStr "contracts" ∈ l) ∨
    (∃ s, doc = JStr s ∧ str_contains "contracts" s = true))).
Proof.
  intros Hloads Hdoc. unfold parse_standard_json_output. rewrite Hloads.
  unfold parse_decoded. destruct doc as [|b|n|x|s|l|d].
  - right. split; [done|]. by left.
  - right. split; [done|]. right. left. by exists b.
  - right. split; [done|]. do 2 right. left. by exists n.
  - right. split; [done|]. do 3 right. left. by exists x.
  - cbn [py_in mbind result_bind]. destruct (str_contains "contracts" s) eqn:Hs.
    + right. split; [done|]. do 5 right. by exists s.
    + left. split; [done|]. right. by exists s.
  - cbn [py_in mbind result_bind].
    destruct (existsb _ l) eqn:Hl.
    + right. split; [done|]. do 4 right. left. exists l. split; [done|].
      by apply existsb_contracts.
    + left. split; [done|]. left. exists l. split; [done|].
      intros Hin%existsb_contracts. congruence.
  - by destruct (Hdoc d).
Qed.

(** X7. For a document with a [contracts] object, the parser returns the
    present and empty sequence exactly when every file of [contracts] has
    an object without contracts (or there is no file). *)
Theorem parse_empty_iff_no_contract
    (f : Path) (raw : string) (d c : list (string * json)) :
  json_loads (strip raw) = Some (JDict d) →
  dict_lookup "contracts" d = Some (JDict c) →
  parse_standard_json_output f raw = Ok (FileReport.mk f (Some []))
  ↔ Forall (λ file : string * json, file.2 = JDict []) c.
Proof.
  intros Hloads Hc.
  rewrite (parse_standard_json_output_contracts _ _ _ _ Hloads Hc).
  rewrite <- Forall_sorted_items. split.
  - intros Hrun. case_call Hrun Hloop; [|done]. injection Hrun as ->.
    pose proof (for_each_files_dicts _ _ _ Hloop) as Hdicts.
    apply for_each_files in Hloop as (new & Hnew & Hall).
    destruct new; [|done]. apply Forall2_nil_inv_l in Hall as Hvisited.
    apply visited_nil in Hvisited.
    eapply Forall_impl; [apply Forall_and; split; [exact Hdicts|exact Hvisited]|].
    intros file [[m Hm] Hentries]. rewrite Hm in Hentries |- *. by rewrite <- Hentries.
  - intros Hempty.
    rewrite (for_each_files_ok _ [] []).
    + done.
    + eapply Forall_impl; [exact Hempty|]. intros file ->. by exists [].
    + assert (visited (sorted_items c) = []) as ->; [|constructor].
      apply visited_nil. eapply Forall_impl; [exact Hempty|]. by intros file ->.
Qed.

(** X8. For a document with a [contracts] object, the parser returns a file
    report exactly when every file of [contracts] has an object and the
    report of every contract can be made; the report then has one contract
    report per contract of the document; in every other case the parser
    fails with an [AttributeError]. *)
Theorem parse_returns_iff_well_shaped
    (f : Path) (raw : string) (d c : list (string * json)) :
  json_loads (strip raw) = Some (JDict d) →
  dict_lookup "contracts" d = Some (JDict c) →
  ((∃ crs, parse_standard_json_output f raw = Ok (FileReport.mk f (Some crs)))
   ↔ Forall (λ file : string * json, ∃ m, file.2 = JDict m) c ∧
     Forall (λ p : string * string * json,
       ∃ cr, contract_report_of p.1.1 p.1.2 p.2 = Ok cr) (contract_pairs c)) ∧
  (∀ crs, parse_standard_json_output f raw = Ok (FileReport.mk f (Some crs)) →
     length crs = length (contract_pairs c)) ∧
  (∀ e, parse_standard_json_output f raw = Raise e → e = AttributeError).
Proof.
  intros Hloads Hc.
  rewrite (parse_standard_json_output_contracts _ _ _ _ Hloads Hc).
  split; [split|split].
  - intros [crs Hrun]. case_call Hrun Hloop; [|done]. injection Hrun as ->.
    split.
    + apply Forall_sorted_items. by eapply for_each_files_dicts.
    + apply for_each_files in Hloop as (new & _ & Hall).
      apply Forall_visited. clear -Hall.
      induction Hall as [|cr p new pairs Hp _ IH]; constructor; eauto.
  - intros [Hdicts Hreports].
    apply Forall_visited in Hreports.
    apply Forall_exists_Forall2 in Hreports as [crs Hcrs].
    exists crs. rewrite (for_each_files_ok _ [] crs); [done| |done].
    by apply Forall_sorted_items.
  - intros crs Hrun. case_call Hrun Hloop; [|done]. injection Hrun as ->.
    apply for_each_files in Hloop as (new & -> & Hall).
    rewrite <- (visited_Permutation c). by apply Forall2_length in Hall.
  - intros e Hrun. case_call Hrun Hloop; [done|]. injection Hrun as ->.
    revert Hloop. apply (for_each_raise (λ e, e = AttributeError)).
    intros acc [file_name file_results] e' Hbody.
    case_call Hbody Hitems.
    2:{ injection Hbody as ->. destruct file_results; by simplify_eq/=. }
    revert Hbody. apply (for_each_raise (λ e, e = AttributeError)).
    intros acc' [contract_name contract_results] e'' Hbody.
    case_call Hbody Hcr; [done|].
    injection Hbody as ->. by apply contract_report_of_raise in Hcr.
Qed.

End parsing.

(** ** One contract *)

(** X6. The report of one contract.  The bytecode is what the results have
    under [evm], [bytecode], [object], and is absent as soon as one of the
    three keys is missing; the metadata is what they have under [metadata],
    absent when the key is missing.  Making the report fails, with an
    [AttributeError], exactly when [evm] is present and no object or
    [bytecode] is present and no object (so for [null] in these places),
    and for results that are no object. *)
Theorem contract_report_of_shape (file_name contract_name : string)
    (m : list (string * json)) :
  (contract_report_of file_name contract_name (JDict m) = Raise AttributeError
   ↔ (∃ v, dict_lookup "evm" m = Some v ∧ ∀ e, v ≠ JDict e) ∨
     (∃ e v, dict_lookup "evm" m = Some (JDict e) ∧
             dict_lookup "bytecode" e = Some v ∧ ∀ b, v ≠ JDict b)) ∧
  ((dict_lookup "evm" m = None ∨
    ∃ e, dict_lookup "evm" m = Some (JDict e) ∧
      (dict_lookup "bytecode" e = None ∨
       ∃ b, dict_lookup "bytecode" e = Some (JDict b) ∧
            dict_lookup "object" b = None)) →
   contract_report_of file_name contract_name (JDict m)
   = Ok (ContractReport.mk contract_name (Path_of_str file_name) JNull
           (default JNull (dict_lookup "metadata" m)))) ∧
  (∀ e b object,
     dict_lookup "evm" m = Some (JDict e) →
     dict_lookup "bytecode" e = Some (JDict b) →
     dict_lookup "object" b = Some object →
     contract_report_of file_name contract_name (JDict m)
     = Ok (ContractReport.mk contract_name (Path_of_str file_name) object
             (default JNull (dict_lookup "metadata" m)))) ∧
  (∀ o, (∀ d, o ≠ JDict d) →
     contract_report_of file_name contract_name o = Raise AttributeError).
Proof.
  unfold contract_report_of. split; [|split; [|split]].
  - destruct (dict_lookup "evm" m) as [evm|] eqn:Hevm; simpl; rewrite ?Hevm; simpl.
    + destruct evm as [| | | | | |e]; simpl;
        try (split; [intros _; left; eexists; split; [done|]; by intros ?|done]).
      destruct (dict_lookup "bytecode" e) as [bytecode|] eqn:Hbytecode; simpl.
      * destruct bytecode as [| | | | | |b]; simpl;
          try (split; [intros _; right; eexists _, _;
                       split; [done|]; split; [done|]; by intros ?|done]).
        split; [done|]. intros [(v & [= <-] & Hv)|(e' & v & [= <-] & Hv' & Hv)].
        -- by destruct (Hv e).
        -- rewrite Hbytecode in Hv'. injection Hv' as <-. by destruct (Hv b).
      * split; [done|]. intros [(v & [= <-] & Hv)|(e' & v & [= <-] & Hv' & Hv)].
        -- by destruct (Hv e).
        -- by rewrite Hbytecode in Hv'.
    + split; [done|]. by intros [(v & ? & _)|(e & v & ? & _)].
  - intros [Hevm|(e & Hevm & [Hb|(b & Hb & Ho)])]; simpl; rewrite Hevm; simpl;
      rewrite ?Hb; simpl; rewrite ?Ho; done.
  - intros e b object Hevm Hb Ho. simpl. rewrite Hevm. simpl. rewrite Hb. simpl.
    by rewrite Ho.
  - intros o Ho. destruct o; try done. by destruct (Ho d).
Qed.

(** ** The path of a source *)

Lemma str_split_slash_simple (s : string) :
  str_contains "/" s = false → str_split_slash s = [s].
Proof.
  induction s as [|c s IH]; [done|].
  cbn [str_contains str_split_slash]. rewrite prefix_cons, prefix_nil_l, andb_true_r.
  intros [Hc Hs]%orb_false_iff. apply bool_decide_eq_false in Hc.
  rewrite IH by done. destruct (Ascii.eqb_spec c "/"); [congruence|done].
Qed.

(** X14. A name without a directory separator, other than the empty name
    and [.], is its own path and its own base name: for the files found in
    the working directory the key of the source in the payload, the name
    the source is read under and the prefix of the report lines are all the
    name as found. *)
Theorem simple_name_is_its_own_path (s : string) :
  s ≠ "" → s ≠ "." → str_contains "/" s = false →
  path_str (Path_of_str s) = s ∧ path_name (Path_of_str s) = s.
Proof.
  intros Hne Hdot Hslash.
  assert (Path_of_str s = mkPath "" [s]) as ->; [|done].
  unfold Path_of_str. rewrite str_split_slash_simple by done.
  assert (String.prefix "/" s = false) as Hroot.
  { destruct s as [|c s]; [done|]. cbn [str_contains] in Hslash.
    by apply orb_false_iff in Hslash as [? _]. }
  assert (String.prefix "//" s = false) as ->.
  { destruct s as [|c s]; [done|]. rewrite prefix_cons in Hroot |- *.
    rewrite prefix_nil_l, andb_true_r in Hroot. by rewrite Hroot. }
  rewrite Hroot. cbn [andb]. f_equal.
  cbn [filter list_filter]. by rewrite decide_True.
Qed.

Lemma simple_name_is_its_own_path_witness :
  path_str (Path_of_str "A.sol") = "A.sol" ∧ path_name (Path_of_str "A.sol") = "A.sol".
Proof. by apply (simple_name_is_its_own_path "A.sol"). Defined.

Section sources.
Context `{Host}.

Lemma parse_relabel (f1 f2 : Path) (raw : string) :
  parse_standard_json_output f2 raw
  = match parse_standard_json_output f1 raw with
    | Ok fr => Ok (FileReport.mk f2 (FileReport.contract_reports fr))
    | Raise e => Raise e
    end.
Proof.
  unfold parse_standard_json_output.
  destruct (json_loads (strip raw)) as [doc|]; [|done].
  unfold parse_decoded.
  destruct (py_in "contracts" doc) as [[]|]; cbn [mbind result_bind negb]; [|done..].
  destruct (py_getitem doc "contracts") as [contracts|]; cbn [mbind result_bind]; [|done].
  destruct (py_items contracts) as [files|]; cbn [mbind result_bind]; [|done].
  by destruct (for_each (sorted_items files) _ []).
Qed.

(** X9. [run_compiler] uses the path of the source for two things only: its
    base name, under which the source is read and sent to the compiler,
    and the label of the report.  For two paths with the same base name it
    gives the same contract reports, or fails in the same way; in
    particular it fails with the error of reading the base name whether or
    not a file exists at the path itself. *)
Theorem run_compiler_reads_the_base_name
    (compiler_path source1 source2 : Path) (optimize : bool) (smt_use : SMTUse) :
  path_name source1 = path_name source2 →
  run_compiler compiler_path source2 optimize smt_use
  = match run_compiler compiler_path source1 optimize smt_use with
    | Ok fr => Ok (FileReport.mk source2 (FileReport.contract_reports fr))
    | Raise e => Raise e
    end ∧
  (∀ e, read_text (path_name source1) = Raise e →
        run_compiler compiler_path source1 optimize smt_use = Raise e).
Proof.
  intros Hname. split.
  - unfold run_compiler. rewrite <- Hname.
    destruct (prepare_compiler_input _ _ _ _) as [[command_line compiler_input]|];
      cbn [mbind result_bind]; [|done].
    destruct (subprocess_run command_line compiler_input) as [stdout|];
      cbn [mbind result_bind]; [|done].
    apply parse_relabel.
  - intros e Hread. unfold run_compiler, prepare_compiler_input, load_source.
    by rewrite Hread.
Qed.

(** X15. For a source without the directive the modes [STRIP_PRAGMAS] and
    [PRESERVE] are the same: the compiler gets the same command line and
    payload, and [run_compiler] gives the same result. *)
Theorem strip_pragmas_is_preserve_without_directive
    (compiler_path source_file_name : Path) (optimize : bool) (content : string) :
  read_text (path_name source_file_name) = Ok content →
  str_contains "pragma experimental SMTChecker;" content = false →
  prepare_compiler_input compiler_path (path_name source_file_name) optimize
    STRIP_PRAGMAS
  = prepare_compiler_input compiler_path (path_name source_file_name) optimize
      PRESERVE ∧
  run_compiler compiler_path source_file_name optimize STRIP_PRAGMAS
  = run_compiler compiler_path source_file_name optimize PRESERVE.
Proof.
  intros Hread Habsent.
  assert (prepare_compiler_input compiler_path (path_name source_file_name) optimize
            STRIP_PRAGMAS
          = prepare_compiler_input compiler_path (path_name source_file_name) optimize
              PRESERVE) as Hprepare.
  { unfold prepare_compiler_input, load_source. rewrite Hread.
    cbn [mbind result_bind]. rewrite decide_True, decide_False by done.
    cbn [mret result_ret mbind result_bind]. unfold str_replace.
    by rewrite str_replace_go_absent. }
  split; [done|]. unfold run_compiler. by rewrite Hprepare.
Qed.

End sources.

(** ** The whole run *)

Section runs.
Context `{Host}.

(** What a failed run leaves behind: the report as it was, the note of the
    handler on the error stream, and the exception raised again. *)
Lemma process_raise_exactly compiler_path smt_use optimize source_file_name e w :
  run_compiler compiler_path (Path_of_str source_file_name) optimize smt_use
    = Raise e →
  process compiler_path smt_use optimize source_file_name w
  = (mkWorld (report_txt w)
       (stderr w +:+ interrupted source_file_name optimize +:+ nl +:+
        match e with
        | CalledProcessError stdout stderr =>
            "COMPILER STDOUT:" +:+ nl +:+ stdout +:+ nl +:+
            "COMPILER STDERR:" +:+ nl +:+ stderr +:+ nl
        | _ => ""
        end),
     Raise e).
Proof.
  intros Hrun. unfold process, io_try, mbind, io_bind, io_lift. rewrite Hrun.
  destruct e; cbn [print_stderr io_raise report_txt stderr];
    by rewrite ?str_app_assoc, ?str_app_nil_r.
Qed.

(** X11. [generate_report] starts the report afresh: what [report.txt] held
    before the run has no influence on the outcome, and without source
    files the run succeeds and leaves the report empty and the error stream
    as it was. *)
Theorem generate_report_starts_afresh (source_file_names : list string)
    (compiler_path : Path) (smt_use : SMTUse) (before1 before2 err : string) :
  generate_report source_file_names compiler_path smt_use (mkWorld before1 err)
  = generate_report source_file_names compiler_path smt_use (mkWorld before2 err) ∧
  generate_report [] compiler_path smt_use (mkWorld before1 err)
  = (mkWorld "" err, Ok tt).
Proof. split; [by rewrite !generate_report_jobs|done]. Qed.

(** X12. The outcome of [generate_report] does not depend on the order in
    which the source files were found: two lists with the same names, in
    any order, give the same report, the same error stream and the same
    result. *)
Theorem generate_report_any_discovery_order (names1 names2 : list string)
    (compiler_path : Path) (smt_use : SMTUse) (w : world) :
  names1 ≡ₚ names2 →
  generate_report names1 compiler_path smt_use w
  = generate_report names2 compiler_path smt_use w.
Proof.
  intros Hperm. rewrite !generate_report_jobs. by rewrite (sorted_unique _ _ Hperm).
Qed.

(** X13. When a run of the compiler fails, [generate_report] stops there.
    The report holds the rendered reports of the runs before it; the error
    stream gains the note naming the file and the optimization level, for a
    [CalledProcessError] followed by the two captured streams of the
    compiler, and nothing else; the exception is raised again as it
    came. *)
Theorem generate_report_interrupted_exactly (source_file_names : list string)
    (compiler_path : Path) (smt_use : SMTUse) (w : world)
    (report_of : bool * string → FileReport)
    (finished rest : list (bool * string)) (job : bool * string) (e : exn) :
  (pair false <$> sorted source_file_names) ++
    (pair true <$> sorted source_file_names) = finished ++ job :: rest →
  (∀ j, j ∈ finished →
     run_compiler compiler_path (Path_of_str j.2) j.1 smt_use = Ok (report_of j)) →
  run_compiler compiler_path (Path_of_str job.2) job.1 smt_use = Raise e →
  generate_report source_file_names compiler_path smt_use w
  = (mkWorld (str_concat (format_report ∘ report_of <$> finished))
       (stderr w +:+ interrupted job.2 job.1 +:+ nl +:+
        match e with
        | CalledProcessError stdout stderr =>
            "COMPILER STDOUT:" +:+ nl +:+ stdout +:+ nl +:+
            "COMPILER STDERR:" +:+ nl +:+ stderr +:+ nl
        | _ => ""
        end),
     Raise e).
Proof.
  intros Hjobs Hruns Hjob. rewrite generate_report_jobs, Hjobs.
  rewrite io_for_app. unfold mbind at 1. unfold io_bind at 1.
  rewrite (io_for_jobs_ok _ _ _ report_of) by done.
  cbn [io_for]. unfold mbind, io_bind.
  by rewrite (process_raise_exactly _ _ _ _ e) by done.
Qed.

End runs.

(** ** The compiler input in the three modes *)

(** X16. The mode changes the settings only, and only by adding: in the
    modes [PRESERVE] and [STRIP_PRAGMAS] the document built for a given
    source text is the same, and in the mode [DISABLE] it is that document
    with the entry [modelChecker] added to the settings; the language, the
    sources, the optimizer setting (the flag as given) and the output
    selection are the same in all three. *)
Theorem json_input_modes (source_file_name content : string) (optimize : bool) :
  ∃ entries settings entries' settings' : list (string * json),
    json_input source_file_name content optimize PRESERVE = Ok (JDict entries) ∧
    json_input source_file_name content optimize STRIP_PRAGMAS = Ok (JDict entries) ∧
    json_input source_file_name content optimize DISABLE = Ok (JDict entries') ∧
    dict_lookup "settings" entries = Some (JDict settings) ∧
    dict_lookup "settings" entries' = Some (JDict settings') ∧
    settings' = settings ++ [("modelChecker", JDict [("engine", JStr "none")])] ∧
    (∀ k, k ≠ "settings" → dict_lookup k entries' = dict_lookup k entries) ∧
    (∀ k, k ≠ "modelChecker" → dict_lookup k settings' = dict_lookup k settings) ∧
    dict_lookup "optimizer" settings = Some (JDict [("enabled", JBool optimize)]) ∧
    dict_keys entries = ["language"; "sources"; "settings"] ∧
    dict_keys settings = ["optimizer"; "outputSelection"].
Proof.
  eexists _, _, _, _. repeat (split; [reflexivity|]).
  split; [|split].
  - intros k Hk. simpl. repeat case_decide; simplify_eq; done.
  - intros k Hk. simpl. repeat case_decide; simplify_eq; done.
  - done.
Qed.

(** ** The modes on the command line *)

(** X10. The value of a mode and the conversion of a value to a mode are
    inverse to each other; the values that convert are exactly the choices
    of the option [--smt-use], whose default stands for [DISABLE]; so for
    every choice the entry point runs [generate_report] in the mode of that
    value, and the conversion fails for no value the parser lets
    through. *)
Theorem SMTUse_values_round_trip :
  (∀ s, SMTUse_of_value (SMTUse_value s) = Some s) ∧
  (∀ v s, SMTUse_of_value v = Some s → SMTUse_value s = v) ∧
  (∀ v, is_Some (SMTUse_of_value v) ↔ v ∈ smt_use_choices) ∧
  SMTUse_of_value smt_use_default = Some DISABLE ∧
  (∀ (H : Host) (sol_files : list string) (compiler_path v : string),
     v ∈ smt_use_choices →
     ∃ smt_use, SMTUse_value smt_use = v ∧
       main sol_files compiler_path v
       = Some (generate_report sol_files (Path_of_str compiler_path) smt_use)).
Proof.
  assert (∀ v s, SMTUse_of_value v = Some s → SMTUse_value s = v) as Hinv.
  { intros v s. unfold SMTUse_of_value, SMTUse_members. cbn [filter list_filter].
    repeat case_decide; cbn [head]; intros [= <-]; done. }
  assert (∀ s, SMTUse_of_value (SMTUse_value s) = Some s) as Hval.
  { by intros []. }
  assert (∀ v, is_Some (SMTUse_of_value v) ↔ v ∈ smt_use_choices) as Hchoices.
  { intros v. split.
    - intros [s Hs]. apply Hinv in Hs as <-.
      apply list_elem_of_fmap_2. destruct s; repeat constructor.
    - intros (s & -> & _)%list_elem_of_fmap. by rewrite Hval. }
  repeat split; try done; try apply Hchoices.
  intros H sol_files compiler_path v [s Hs]%Hchoices.
  exists s. split; [by apply Hinv|]. unfold main. by rewrite Hs.
Qed.

(** ** The further properties at concrete inputs *)

Lemma parse_reads_contracts_only_witness :
  parse_standard_json_output (H:=warned_host) (Path_of_str "A.sol") demo_output_warned
  = parse_standard_json_output (H:=warned_host) (Path_of_str "A.sol") demo_output_two.
Proof.
  apply (parse_reads_contracts_only (H:=warned_host) (Path_of_str "A.sol")
           demo_output_warned demo_output_two
           [("errors", JList [JInt 1]); ("contracts", JDict demo_contracts)]
           [("contracts", JDict demo_contracts)]); reflexivity.
Defined.

Lemma parse_of_a_document_that_is_no_object_witness :
  (parse_standard_json_output (H:=warned_host) (Path_of_str "A.sol") "[]"
     = Ok (FileReport.mk (Path_of_str "A.sol") None) ∧
   ((∃ l, JList [] = JList l ∧ JStr "contracts" ∉ l) ∨
    (∃ s, JList [] = JStr s ∧ str_contains "contracts" s = false))) ∨
  (parse_standard_json_output (H:=warned_host) (Path_of_str "A.sol") "[]"
     = Raise TypeError ∧
   (JList [] = JNull ∨ (∃ b, JList [] = JBool b) ∨ (∃ n, JList [] = JInt n) ∨
    (∃ x, JList [] = JFloat x) ∨
    (∃ l, JList [] = JList l ∧ JStr "contracts" ∈ l) ∨
    (∃ s, JList [] = JStr s ∧ str_contains "contracts" s = true))).
Proof.
  apply (parse_of_a_document_that_is_no_object (H:=warned_host)
           (Path_of_str "A.sol") "[]" (JList [])); [reflexivity|discriminate].
Defined.

Lemma parse_empty_iff_no_contract_witness :
  json_loads (Host:=demo_host) (strip demo_output_empty)
    = Some (JDict [("contracts", JDict [])]) ∧
  (parse_standard_json_output (H:=demo_host) (Path_of_str "A.sol") demo_output_empty
     = Ok (FileReport.mk (Path_of_str "A.sol") (Some []))
   ↔ Forall (λ file : string * json, file.2 = JDict []) []).
Proof.
  split; [reflexivity|].
  apply (parse_empty_iff_no_contract (H:=demo_host) (Path_of_str "A.sol")
           demo_output_empty [("contracts", JDict [])] []); reflexivity.
Defined.

Lemma parse_returns_iff_well_shaped_witness :
  ((∃ crs, parse_standard_json_output (H:=demo_host) (Path_of_str "A.sol")
             demo_output_two = Ok (FileReport.mk (Path_of_str "A.sol") (Some crs)))
   ↔ Forall (λ file : string * json, ∃ m, file.2 = JDict m) demo_contracts ∧
     Forall (λ p : string * string * json,
       ∃ cr, contract_report_of p.1.1 p.1.2 p.2 = Ok cr)
       (contract_pairs demo_contracts)) ∧
  (∀ crs, parse_standard_json_output (H:=demo_host) (Path_of_str "A.sol")
            demo_output_two = Ok (FileReport.mk (Path_of_str "A.sol") (Some crs)) →
     length crs = length (contract_pairs demo_contracts)) ∧
  (∀ e, parse_standard_json_output (H:=demo_host) (Path_of_str "A.sol")
          demo_output_two = Raise e → e = AttributeError).
Proof.
  apply (parse_returns_iff_well_shaped (H:=demo_host) (Path_of_str "A.sol")
           demo_output_two [("contracts", JDict demo_contracts)] demo_contracts);
    reflexivity.
Defined.

Lemma run_compiler_reads_the_base_name_witness :
  run_compiler (H:=demo_host) (Path_of_str "solc") (Path_of_str "dir/A.sol") true
    PRESERVE
  = match run_compiler (H:=demo_host) (Path_of_str "solc") (Path_of_str "A.sol")
            true PRESERVE with
    | Ok fr => Ok (FileReport.mk (Path_of_str "dir/A.sol")
                     (FileReport.contract_reports fr))
    | Raise e => Raise e
    end ∧
  (∀ e, read_text (Host:=demo_host) (path_name (Path_of_str "A.sol")) = Raise e →
        run_compiler (H:=demo_host) (Path_of_str "solc") (Path_of_str "A.sol")
          true PRESERVE = Raise e).
Proof.
  apply (run_compiler_reads_the_base_name (H:=demo_host) (Path_of_str "solc")
           (Path_of_str "A.sol") (Path_of_str "dir/A.sol") true PRESERVE);
    reflexivity.
Defined.

Lemma strip_pragmas_is_preserve_without_directive_witness :
  prepare_compiler_input (H:=demo_host) (Path_of_str "solc")
    (path_name (Path_of_str "A.sol")) false STRIP_PRAGMAS
  = prepare_compiler_input (H:=demo_host) (Path_of_str "solc")
      (path_name (Path_of_str "A.sol")) false PRESERVE ∧
  run_compiler (H:=demo_host) (Path_of_str "solc") (Path_of_str "A.sol") false
    STRIP_PRAGMAS
  = run_compiler (H:=demo_host) (Path_of_str "solc") (Path_of_str "A.sol") false
      PRESERVE.
Proof.
  apply (strip_pragmas_is_preserve_without_directive (H:=demo_host)
           (Path_of_str "solc") (Path_of_str "A.sol") false "contract A {}");
    reflexivity.
Defined.

Lemma generate_report_any_discovery_order_witness :
  generate_report (H:=demo_host) ["B.sol"; "A.sol"] (Path_of_str "solc") DISABLE
    (mkWorld "" "")
  = generate_report (H:=demo_host) ["A.sol"; "B.sol"] (Path_of_str "solc") DISABLE
      (mkWorld "" "").
Proof.
  apply (generate_report_any_discovery_order (H:=demo_host) ["B.sol"; "A.sol"]
           ["A.sol"; "B.sol"] (Path_of_str "solc") DISABLE (mkWorld "" "")).
  apply Permutation_swap.
Defined.

Lemma generate_report_interrupted_exactly_witness :
  generate_report (H:=demo_host) ["missing.sol"; "A.sol"] (Path_of_str "solc")
    DISABLE (mkWorld "old" "")
  = (mkWorld
       (str_concat (format_report (H:=demo_host) ∘ (λ _, demo_file_report_parsed)
                      <$> [(false, "A.sol")]))
       ("" +:+ interrupted "missing.sol" false +:+ nl +:+ ""),
     Raise OSError).
Proof.
  apply (generate_report_interrupted_exactly (H:=demo_host)
           ["missing.sol"; "A.sol"] (Path_of_str "solc") DISABLE (mkWorld "old" "")
           (λ _, demo_file_report_parsed) [(false, "A.sol")]
           [(true, "A.sol"); (true, "missing.sol")] (false, "missing.sol") OSError).
  - reflexivity.
  - intros j ->%list_elem_of_singleton. reflexivity.
  - reflexivity.
Defined.

(** What the first handler does, on a host whose run of the compiler
    raises [CalledProcessError]: the note and the two captured streams go
    to the error stream, the report stays empty.  ([subprocess.run] as the
    script calls it, without [check], raises no such exception for a
    compiler that exits with an error.) *)
Example generate_report_compiler_fails :
  generate_report (H:=failing_host) ["A.sol"] (Path_of_str "solc") DISABLE
    (mkWorld "old" "")
  = (mkWorld ""
       (interrupted "A.sol" false +:+ nl +:+
        "COMPILER STDOUT:" +:+ nl +:+ "out" +:+ nl +:+
        "COMPILER STDERR:" +:+ nl +:+ "err" +:+ nl),
     Raise (CalledProcessError "out" "err")).
Proof. reflexivity. Qed.

(** The document [null] is no container: the membership test raises. *)
Example parse_null_raises :
  parse_standard_json_output (H:=warned_host) (Path_of_str "A.sol") "null"
  = Raise TypeError.
Proof. reflexivity. Qed.

(** A value that is no mode stops the entry point before anything runs. *)
Example main_unknown_mode :
  main (H:=demo_host) ["A.sol"] "solc" "none" = None.
Proof. reflexivity. Qed.
